(** * Log-artifact persistence (skyvern/forge/sdk/log_artifacts.py)

    A shallow embedding of the four entity-scoped save operations and of
    the artifact reconciler [_save_log_artifacts], with the external
    collaborators (encoders, artifact store, artifact manager, logger,
    context provider) kept abstract, and the properties of the written
    specification stated over it. *)

From Stdlib Require Import Ascii String List NArith ZArith Lia.
From stdpp Require Import base option list gmap strings.

Local Open Scope string_scope.

(** ** Values and log entries *)

(** The scalar values a structured log entry holds.  Containers are not
    needed: the code only ever compares a looked-up value with a [str]. *)
Inductive PyValue : Type :=
| PyNone
| PyBool (b : bool)
| PyInt (z : Z)
| PyStr (s : string).

#[global] Instance PyValue_eq_dec : EqDecision PyValue.
Proof. solve_decision. Defined.

(** Python's [==] on these values: [bool] is a subclass of [int], a [str]
    equals only a [str] with the same characters, [None] only [None]. *)
Definition py_eq (a b : PyValue) : bool :=
  match a, b with
  | PyNone, PyNone => true
  | PyBool x, PyBool y => Bool.eqb x y
  | PyBool x, PyInt y => Z.eqb (Z.b2z x) y
  | PyInt x, PyBool y => Z.eqb x (Z.b2z y)
  | PyInt x, PyInt y => Z.eqb x y
  | PyStr x, PyStr y => String.eqb x y
  | _, _ => false
  end.

(** A log entry is a [dict] from field names to values. *)
Abbreviation LogEntry := (gmap string PyValue).

(** [entry.get(key, default)] *)
Definition dict_get (entry : LogEntry) (key : string) (default : PyValue) : PyValue :=
  match entry !! key with
  | Some v => v
  | None => default
  end.

(** The list comprehension of lines 47, 63, 79 and 94:
    [[entry for entry in log if entry.get(field, '') == value]]. *)
Definition select_entries (field value : string) (log : list LogEntry) : list LogEntry :=
  List.filter (fun entry => py_eq (dict_get entry field (PyStr EmptyString)) (PyStr value)) log.

(** The filter as the specification words it: the entries whose [field]
    is present and equal to [value]; an entry without the field never
    matches. *)
Definition spec_filter (field value : string) (log : list LogEntry) : list LogEntry :=
  List.filter (fun entry => bool_decide (entry !! field = Some (PyStr value))) log.

(** ** Enumerations, artifacts, exceptions *)

(** Modelled from the spec: [LogEntityType] is declared in
    skyvern/forge/sdk/artifact/models.py.  Its four members are the ones the
    code names; [UNRECOGNIZED] stands for any other object a caller may
    pass where a [LogEntityType] is expected. *)
Inductive LogEntityType : Type :=
| STEP
| TASK
| WORKFLOW_RUN
| WORKFLOW_RUN_BLOCK
| UNRECOGNIZED (repr : string).

(** Modelled from the spec: [ArtifactType] is declared in
    skyvern/forge/sdk/artifact/models.py; these are the two members this
    module names, the raw-log and the formatted-log artifact types. *)
Inductive ArtifactType : Type :=
| SKYVERN_LOG_RAW
| SKYVERN_LOG.

(** Modelled from the spec: the artifact class is declared outside this
    module; [artifact_id] is the only attribute read here. *)
Record Artifact : Type := { artifact_id : string }.

(** What a Python expression can raise.  The first four are instances of
    [Exception]; [CancelledError] ([asyncio.CancelledError], raised at an
    [await] when the task is cancelled) and [OtherBaseException]
    ([KeyboardInterrupt], [SystemExit]) derive from [BaseException]
    only. *)
Inductive PyExc : Type :=
| ValueError (msg : string)
| AttributeError (msg : string)
| UnicodeEncodeError (reason : string)
| OtherException (cls msg : string)
| CancelledError
| OtherBaseException (cls msg : string).

(** [isinstance(e, Exception)] *)
Definition is_exception (e : PyExc) : bool :=
  match e with
  | ValueError _ => true
  | AttributeError _ => true
  | UnicodeEncodeError _ => true
  | OtherException _ _ => true
  | CancelledError => false
  | OtherBaseException _ _ => false
  end.

#[global] Instance LogEntityType_eq_dec : EqDecision LogEntityType.
Proof. solve_decision. Defined.
#[global] Instance ArtifactType_eq_dec : EqDecision ArtifactType.
Proof. solve_decision. Defined.
#[global] Instance Artifact_eq_dec : EqDecision Artifact.
Proof. solve_decision. Defined.
#[global] Instance PyExc_eq_dec : EqDecision PyExc.
Proof. solve_decision. Defined.

(** What evaluating a Python expression ends in. *)
Inductive Outcome (A : Type) : Type :=
| Return (a : A)
| Raise (e : PyExc).
Arguments Return {A} a.
Arguments Raise {A} e.

(** The four keyword arguments [step_id], [task_id], [workflow_run_id],
    [workflow_run_block_id], each a [str | None]. *)
Record EntityIds : Type := EntityIdFields {
  ids_step_id : option string;
  ids_task_id : option string;
  ids_workflow_run_id : option string;
  ids_workflow_run_block_id : option string
}.

(** A Python [str] is held as the bytes of its UTF-8 form.  UTF-8 proper
    has no form for a lone surrogate (U+D800 to U+DFFF); here it is held
    as the three bytes the [surrogatepass] handler writes for it: ED, then
    a byte from A0 to BF, then a continuation byte.  ED is a lead byte
    only, and before any other code point it is followed by 80 to 9F, so
    the test below finds exactly the surrogates. *)
Fixpoint has_surrogate (s : string) : bool :=
  match s with
  | EmptyString => false
  | String a rest =>
      match rest with
      | EmptyString => false
      | String b _ =>
          (N.eqb (N_of_ascii a) 237 && N.leb 160 (N_of_ascii b) &&
           N.leb (N_of_ascii b) 191)
          || has_surrogate rest
      end
  end.

Definition utf8_bytes (s : string) : list Byte.byte := list_byte_of_string s.

(** [str.encode()]: the UTF-8 bytes of a string, with the strict error
    handler: a lone surrogate raises [UnicodeEncodeError]. *)
Definition encode (s : string) : Outcome (list Byte.byte) :=
  if has_surrogate s
  then Raise (UnicodeEncodeError "surrogates not allowed")
  else Return (utf8_bytes s).

(** lines 30-40 *)
Definition primary_key_from_log_entity_type (log_entity_type : LogEntityType) : Outcome string :=
  match log_entity_type with
  | STEP => Return "step_id"
  | TASK => Return "task_id"
  | WORKFLOW_RUN => Return "workflow_run_id"
  | WORKFLOW_RUN_BLOCK => Return "workflow_run_block_id"
  | UNRECOGNIZED repr => Raise (ValueError ("Invalid log entity type: " ++ repr))
  end.

(** ** Observable calls *)

(** Every call that leaves the module, with its arguments and, for the
    collaborators that answer, what came back. *)
Inductive Event : Type :=
| EJsonDumps (log : list LogEntry) (r : Outcome string)
| EFormatEncode (log : list LogEntry) (r : Outcome string)
| EGetArtifact (ty : ArtifactType) (ids : EntityIds) (organization_id : string)
    (r : Outcome (option Artifact))
| EUpdateArtifact (id organization_id : string) (data : list Byte.byte)
    (primary_key : string) (r : Outcome unit)
| ECreateArtifact (organization_id : string) (ids : EntityIds)
    (log_entity_type : LogEntityType) (log_entity_id : string)
    (ty : ArtifactType) (data : list Byte.byte) (r : Outcome unit)
| ELogWarning (msg func : string)
| ELogError (msg : string) (log_entity_type : LogEntityType)
    (log_entity_id organization_id : string) (ids : EntityIds) (exc_info : PyExc).

(** ** The world the module runs in *)

(** Modelled from the spec: the execution context is declared in
    skyvern/forge/sdk/core/skyvern_context.py; the module reads its ordered
    log buffer and its organization id. *)
Record SkyvernContext : Type := {
  log : list LogEntry;
  organization_id : string
}.

Section Operations.

(** State of the external services (database, artifact storage). *)
Context {St : Type}.

(** The collaborators behind [json.dumps(..., cls=SkyvernJSONLogEncoder)],
    [SkyvernLogEncoder.encode], [app.DATABASE] and [app.ARTIFACT_MANAGER].
    Their code is outside this module, so nothing is assumed of them: each
    may answer or raise, and may change the external state. *)
Record App : Type := {
  json_dumps : list LogEntry -> St -> Outcome string * St;
  format_encode : list LogEntry -> St -> Outcome string * St;
  get_artifact_by_entity_id :
    ArtifactType -> EntityIds -> string -> St -> Outcome (option Artifact) * St;
  update_artifact_data :
    string -> string -> list Byte.byte -> string -> St -> Outcome unit * St;
  create_log_artifact :
    string -> EntityIds -> LogEntityType -> string -> ArtifactType ->
    list Byte.byte -> St -> Outcome unit * St
}.

(** [current] is what [skyvern_context.current()] answers. *)
Record World : Type := {
  current : option SkyvernContext;
  services : St
}.

(** A computation: from a world to an outcome, the world after, and the
    calls issued on the way, oldest first. *)
Definition M (A : Type) : Type := World -> Outcome A * World * list Event.

Definition ret {A} (a : A) : M A := fun w => (Return a, w, []).

Definition raise {A} (e : PyExc) : M A := fun w => (Raise e, w, []).

Definition bind {A B} (m : M A) (k : A -> M B) : M B :=
  fun w =>
    match m w with
    | (Return a, w1, t1) =>
        match k a w1 with
        | (r, w2, t2) => (r, w2, (t1 ++ t2)%list)
        end
    | (Raise e, w1, t1) => (Raise e, w1, t1)
    end.

(** [try: body / except Exception as e: handler e].  What is not an
    instance of [Exception] passes the handler by. *)
Definition try_except {A} (body : M A) (handler : PyExc -> M A) : M A :=
  fun w =>
    match body w with
    | (Return a, w1, t1) => (Return a, w1, t1)
    | (Raise e, w1, t1) =>
        if is_exception e
        then match handler e w1 with
             | (r, w2, t2) => (r, w2, (t1 ++ t2)%list)
             end
        else (Raise e, w1, t1)
    end.

Definition lift {A} (o : Outcome A) : M A := fun w => (o, w, []).

(** A logger call: recorded, never failing. *)
Definition emit (ev : Event) : M unit := fun w => (Return tt, w, [ev]).

(** A collaborator call: run on the services' state, recorded with its
    answer. *)
Definition call {A} (f : St -> Outcome A * St) (ev : Outcome A -> Event) : M A :=
  fun w =>
    match f (services w) with
    | (r, s') => (r, {| current := current w; services := s' |}, [ev r])
    end.

Definition skyvern_context_current : M (option SkyvernContext) :=
  fun w => (Return (current w), w, []).

End Operations.

Arguments App St : clear implicits.
Arguments World St : clear implicits.
Arguments M St A : clear implicits.

Notation "'let*' x ':=' m 'in' k" := (bind m (fun x => k))
  (at level 10, x name, m at level 100, k at level 200).

(** ** The module's functions *)

Section LogArtifacts.

Context {St : Type} (app : App St).

(** lines 15-28: the decorator.  The wrapped function runs only when a
    context is present; otherwise one warning is logged and [None] is
    returned. *)
Definition with_skyvern_context {A} (func_name : string) (func : A -> M St unit)
  : A -> M St unit :=
  fun args =>
    let* context := skyvern_context_current in
    match context with
    | None =>
        emit (ELogWarning "No Skyvern context found, skipping function execution"
                func_name)
    | Some _ => func args
    end.

(** [skyvern_context.current().attr]; on [None] the attribute access
    raises. *)
Definition current_attr {A} (attr : string) (proj : SkyvernContext -> A) : M St A :=
  let* context := skyvern_context_current in
  match context with
  | Some c => ret (proj c)
  | None =>
      raise (AttributeError
               ("'NoneType' object has no attribute '" ++ attr ++ "'"))
  end.

(** lines 105-189: the reconciler. *)
Definition _save_log_artifacts
    (log : list LogEntry) (log_entity_type : LogEntityType)
    (log_entity_id organization_id : string)
    (step_id task_id workflow_run_id workflow_run_block_id : option string)
  : M St unit :=
  let ids := EntityIdFields step_id task_id workflow_run_id workflow_run_block_id in
  try_except
    (let* log_json := call (json_dumps app log) (EJsonDumps log) in
     let* log_artifact :=
       call (get_artifact_by_entity_id app SKYVERN_LOG_RAW ids organization_id)
            (EGetArtifact SKYVERN_LOG_RAW ids organization_id) in
     let* _ :=
       match log_artifact with
       | Some artifact =>
           let* data := lift (encode log_json) in
           let* primary_key := lift (primary_key_from_log_entity_type log_entity_type) in
           call (update_artifact_data app (artifact_id artifact) organization_id
                   data primary_key)
                (EUpdateArtifact (artifact_id artifact) organization_id data primary_key)
       | None =>
           let* data := lift (encode log_json) in
           call (create_log_artifact app organization_id ids log_entity_type
                   log_entity_id SKYVERN_LOG_RAW data)
                (ECreateArtifact organization_id ids log_entity_type
                   log_entity_id SKYVERN_LOG_RAW data)
       end in
     let* formatted_log := call (format_encode app log) (EFormatEncode log) in
     let* formatted_log_artifact :=
       call (get_artifact_by_entity_id app SKYVERN_LOG ids organization_id)
            (EGetArtifact SKYVERN_LOG ids organization_id) in
     match formatted_log_artifact with
     | Some artifact =>
         let* data := lift (encode formatted_log) in
         let* primary_key := lift (primary_key_from_log_entity_type log_entity_type) in
         call (update_artifact_data app (artifact_id artifact) organization_id
                 data primary_key)
              (EUpdateArtifact (artifact_id artifact) organization_id data primary_key)
     | None =>
         let* data := lift (encode formatted_log) in
         call (create_log_artifact app organization_id ids log_entity_type
                 log_entity_id SKYVERN_LOG data)
              (ECreateArtifact organization_id ids log_entity_type
                 log_entity_id SKYVERN_LOG data)
     end)
    (fun e =>
       emit (ELogError "Failed to save log artifacts" log_entity_type
               log_entity_id organization_id ids e)).

(** lines 42-55 *)
Definition save_step_logs_wrapped (step_id : string) : M St unit :=
  let* log := current_attr "log" log in
  let* organization_id := current_attr "organization_id" organization_id in
  let current_step_log := select_entries "step_id" step_id log in
  _save_log_artifacts current_step_log STEP step_id organization_id
    (Some step_id) None None None.

Definition save_step_logs : string -> M St unit :=
  with_skyvern_context "save_step_logs" save_step_logs_wrapped.

(** lines 58-71 *)
Definition save_task_logs_wrapped (task_id : string) : M St unit :=
  let* log := current_attr "log" log in
  let* organization_id := current_attr "organization_id" organization_id in
  let current_task_log := select_entries "task_id" task_id log in
  _save_log_artifacts current_task_log TASK task_id organization_id
    None (Some task_id) None None.

Definition save_task_logs : string -> M St unit :=
  with_skyvern_context "save_task_logs" save_task_logs_wrapped.

(** lines 74-87 *)
Definition save_workflow_run_logs_wrapped (workflow_run_id : string) : M St unit :=
  let* log := current_attr "log" log in
  let* organization_id := current_attr "organization_id" organization_id in
  let current_workflow_run_log :=
    select_entries "workflow_run_id" workflow_run_id log in
  _save_log_artifacts current_workflow_run_log WORKFLOW_RUN workflow_run_id
    organization_id None None (Some workflow_run_id) None.

Definition save_workflow_run_logs : string -> M St unit :=
  with_skyvern_context "save_workflow_run_logs" save_workflow_run_logs_wrapped.

(** lines 90-102 *)
Definition save_workflow_run_block_logs_wrapped (workflow_run_block_id : string)
  : M St unit :=
  let* log := current_attr "log" log in
  let* organization_id := current_attr "organization_id" organization_id in
  let current_workflow_run_block_log :=
    select_entries "workflow_run_block_id" workflow_run_block_id log in
  _save_log_artifacts current_workflow_run_block_log WORKFLOW_RUN_BLOCK
    workflow_run_block_id organization_id
    None None None (Some workflow_run_block_id).

Definition save_workflow_run_block_logs : string -> M St unit :=
  with_skyvern_context "save_workflow_run_block_logs"
    save_workflow_run_block_logs_wrapped.

End LogArtifacts.

(** ** Reading a run *)

Definition outcome_of {St A} (r : Outcome A * World St * list Event) : Outcome A :=
  fst (fst r).
Definition world_of {St A} (r : Outcome A * World St * list Event) : World St :=
  snd (fst r).
Definition trace_of {St A} (r : Outcome A * World St * list Event) : list Event :=
  snd r.

(** The exception a collaborator call ended in, if it did. *)
Definition event_raised (ev : Event) : option PyExc :=
  let of_outcome {A} (r : Outcome A) :=
    match r with Return _ => None | Raise e => Some e end in
  match ev with
  | EJsonDumps _ r => of_outcome r
  | EFormatEncode _ r => of_outcome r
  | EGetArtifact _ _ _ r => of_outcome r
  | EUpdateArtifact _ _ _ _ r => of_outcome r
  | ECreateArtifact _ _ _ _ _ _ r => of_outcome r
  | ELogWarning _ _ => None
  | ELogError _ _ _ _ _ _ => None
  end.

(** The entity-id fields a call carries, if it carries them. *)
Definition event_ids (ev : Event) : option EntityIds :=
  match ev with
  | EGetArtifact _ ids _ _ => Some ids
  | ECreateArtifact _ ids _ _ _ _ _ => Some ids
  | ELogError _ _ _ _ ids _ => Some ids
  | _ => None
  end.

(** Calls on the artifact store ([app.DATABASE]). *)
Definition is_store_call (ev : Event) : bool :=
  match ev with EGetArtifact _ _ _ _ => true | _ => false end.

(** Calls on the artifact manager ([app.ARTIFACT_MANAGER]). *)
Definition is_manager_call (ev : Event) : bool :=
  match ev with
  | EUpdateArtifact _ _ _ _ _ => true
  | ECreateArtifact _ _ _ _ _ _ _ => true
  | _ => false
  end.

Definition is_warning (ev : Event) : bool :=
  match ev with ELogWarning _ _ => true | _ => false end.

(** Calls that only the formatted pass (lines 148-177) issues and that
    name it: the formatted encoder and the store and manager calls for
    [SKYVERN_LOG]. *)
Definition is_formatted_call (ev : Event) : bool :=
  match ev with
  | EFormatEncode _ _ => true
  | EGetArtifact SKYVERN_LOG _ _ _ => true
  | ECreateArtifact _ _ _ _ SKYVERN_LOG _ _ => true
  | _ => false
  end.

(** The encoder call of each pass. *)
Definition pass_encoding (ty : ArtifactType) : list LogEntry -> Outcome string -> Event :=
  match ty with
  | SKYVERN_LOG_RAW => EJsonDumps
  | SKYVERN_LOG => EFormatEncode
  end.

(** The (name, value) pairs of the entity-id fields that are not [None],
    in declaration order. *)
Definition non_null_fields (ids : EntityIds) : list (string * string) :=
  let field name (v : option string) :=
    match v with Some x => [(name, x)] | None => [] end in
  (field "step_id" (ids_step_id ids) ++ field "task_id" (ids_task_id ids) ++
   field "workflow_run_id" (ids_workflow_run_id ids) ++
   field "workflow_run_block_id" (ids_workflow_run_block_id ids))%list.

(** The four save operations, as one family. *)
Inductive SaveOp : Type :=
| SaveStep
| SaveTask
| SaveWorkflowRun
| SaveWorkflowRunBlock.

Definition save_op {St} (app : App St) (op : SaveOp) : string -> M St unit :=
  match op with
  | SaveStep => save_step_logs app
  | SaveTask => save_task_logs app
  | SaveWorkflowRun => save_workflow_run_logs app
  | SaveWorkflowRunBlock => save_workflow_run_block_logs app
  end.

Definition op_name (op : SaveOp) : string :=
  match op with
  | SaveStep => "save_step_logs"
  | SaveTask => "save_task_logs"
  | SaveWorkflowRun => "save_workflow_run_logs"
  | SaveWorkflowRunBlock => "save_workflow_run_block_logs"
  end.

Definition op_kind (op : SaveOp) : LogEntityType :=
  match op with
  | SaveStep => STEP
  | SaveTask => TASK
  | SaveWorkflowRun => WORKFLOW_RUN
  | SaveWorkflowRunBlock => WORKFLOW_RUN_BLOCK
  end.

Definition op_field (op : SaveOp) : string :=
  match op with
  | SaveStep => "step_id"
  | SaveTask => "task_id"
  | SaveWorkflowRun => "workflow_run_id"
  | SaveWorkflowRunBlock => "workflow_run_block_id"
  end.

Definition op_ids (op : SaveOp) (id : string) : EntityIds :=
  match op with
  | SaveStep => EntityIdFields (Some id) None None None
  | SaveTask => EntityIdFields None (Some id) None None
  | SaveWorkflowRun => EntityIdFields None None (Some id) None
  | SaveWorkflowRunBlock => EntityIdFields None None None (Some id)
  end.

(** Lines 116-146 on their own: the raw pass. *)
Definition raw_pass {St} (app : App St) (log : list LogEntry)
    (kind : LogEntityType) (id org : string) (ids : EntityIds) : M St unit :=
  let* log_json := call (json_dumps app log) (EJsonDumps log) in
  let* log_artifact :=
    call (get_artifact_by_entity_id app SKYVERN_LOG_RAW ids org)
         (EGetArtifact SKYVERN_LOG_RAW ids org) in
  match log_artifact with
  | Some artifact =>
      let* data := lift (encode log_json) in
      let* primary_key := lift (primary_key_from_log_entity_type kind) in
      call (update_artifact_data app (artifact_id artifact) org data primary_key)
           (EUpdateArtifact (artifact_id artifact) org data primary_key)
  | None =>
      let* data := lift (encode log_json) in
      call (create_log_artifact app org ids kind id SKYVERN_LOG_RAW data)
           (ECreateArtifact org ids kind id SKYVERN_LOG_RAW data)
  end.

(** Lines 148-177 on their own: the formatted pass. *)
Definition formatted_pass {St} (app : App St) (log : list LogEntry)
    (kind : LogEntityType) (id org : string) (ids : EntityIds) : M St unit :=
  let* formatted_log := call (format_encode app log) (EFormatEncode log) in
  let* formatted_log_artifact :=
    call (get_artifact_by_entity_id app SKYVERN_LOG ids org)
         (EGetArtifact SKYVERN_LOG ids org) in
  match formatted_log_artifact with
  | Some artifact =>
      let* data := lift (encode formatted_log) in
      let* primary_key := lift (primary_key_from_log_entity_type kind) in
      call (update_artifact_data app (artifact_id artifact) org data primary_key)
           (EUpdateArtifact (artifact_id artifact) org data primary_key)
  | None =>
      let* data := lift (encode formatted_log) in
      call (create_log_artifact app org ids kind id SKYVERN_LOG data)
           (ECreateArtifact org ids kind id SKYVERN_LOG data)
  end.

(** The reconciler applied to the four fields of an [EntityIds]. *)
Definition reconcile {St} (app : App St) (log : list LogEntry)
    (kind : LogEntityType) (id org : string) (ids : EntityIds) : M St unit :=
  _save_log_artifacts app log kind id org
    (ids_step_id ids) (ids_task_id ids) (ids_workflow_run_id ids)
    (ids_workflow_run_block_id ids).

(** ** Scripted collaborators

    Stand-ins with fixed answers, for running the operations on concrete
    inputs. *)
Record Script : Type := {
  dumps_answer : Outcome string;
  format_answer : Outcome string;
  get_answer : ArtifactType -> Outcome (option Artifact);
  update_answer : Outcome unit;
  create_answer : ArtifactType -> Outcome unit
}.

Definition scripted (sc : Script) : App unit := {|
  json_dumps := fun _ s => (dumps_answer sc, s);
  format_encode := fun _ s => (format_answer sc, s);
  get_artifact_by_entity_id := fun ty _ _ s => (get_answer sc ty, s);
  update_artifact_data := fun _ _ _ _ s => (update_answer sc, s);
  create_log_artifact := fun _ _ _ _ ty _ s => (create_answer sc ty, s)
|}.

(** Every collaborator answers; the store holds nothing. *)
Definition healthy_empty : Script := {|
  dumps_answer := Return "[]";
  format_answer := Return "-";
  get_answer := fun _ => Return None;
  update_answer := Return tt;
  create_answer := fun _ => Return tt
|}.

(** Every collaborator answers; the store holds artifact [a_raw] for the
    raw log and [a_fmt] for the formatted one. *)
Definition healthy_existing : Script := {|
  dumps_answer := Return "[]";
  format_answer := Return "-";
  get_answer := fun ty =>
    match ty with
    | SKYVERN_LOG_RAW => Return (Some {| artifact_id := "a_raw" |})
    | SKYVERN_LOG => Return (Some {| artifact_id := "a_fmt" |})
    end;
  update_answer := Return tt;
  create_answer := fun _ => Return tt
|}.

(** The raw encoder raises. *)
Definition failing_dumps : Script := {|
  dumps_answer := Raise (OtherException "TypeError" "not JSON serializable");
  format_answer := Return "-";
  get_answer := fun _ => Return None;
  update_answer := Return tt;
  create_answer := fun _ => Return tt
|}.

Definition world0 (ctx : option SkyvernContext) : World unit :=
  {| current := ctx; services := tt |}.


(** The one-character string holding the lone surrogate U+DC80. *)
Definition lone_surrogate : string :=
  String (ascii_of_nat 237) (String (ascii_of_nat 178)
    (String (ascii_of_nat 128) EmptyString)).

(** Every collaborator answers and both artifacts are stored, but the
    formatted encoder renders a lone surrogate. *)
Definition surrogate_format_existing : Script := {|
  dumps_answer := Return "[]";
  format_answer := Return lone_surrogate;
  get_answer := fun ty =>
    match ty with
    | SKYVERN_LOG_RAW => Return (Some {| artifact_id := "a_raw" |})
    | SKYVERN_LOG => Return (Some {| artifact_id := "a_fmt" |})
    end;
  update_answer := Return tt;
  create_answer := fun _ => Return tt
|}.

(** Every collaborator answers and the store holds nothing, but the
    formatted encoder renders a lone surrogate. *)
Definition surrogate_format_empty : Script := {|
  dumps_answer := Return "[]";
  format_answer := Return lone_surrogate;
  get_answer := fun _ => Return None;
  update_answer := Return tt;
  create_answer := fun _ => Return tt
|}.

(** The formatted encoder raises. *)
Definition failing_format : Script := {|
  dumps_answer := Return "[]";
  format_answer := Raise (OtherException "RuntimeError" "cannot render");
  get_answer := fun _ => Return None;
  update_answer := Return tt;
  create_answer := fun _ => Return tt
|}.

(** ** More ways to read a trace *)

Definition is_error_log (ev : Event) : bool :=
  match ev with ELogError _ _ _ _ _ _ => true | _ => false end.

(** Calls on the two encoders. *)
Definition is_encoder_call (ev : Event) : bool :=
  match ev with
  | EJsonDumps _ _ => true
  | EFormatEncode _ _ => true
  | _ => false
  end.

(** A call carries the arguments of the reconciler it comes from: the
    encoders get its log, every call that takes an organization id gets
    its organization id, and a creation or an error log its entity kind
    and entity id.  The reconciler logs no warning. *)
Definition event_agrees (log : list LogEntry) (kind : LogEntityType)
    (id org : string) (ev : Event) : Prop :=
  match ev with
  | EJsonDumps l _ => l = log
  | EFormatEncode l _ => l = log
  | EGetArtifact _ _ o _ => o = org
  | EUpdateArtifact _ o _ _ _ => o = org
  | ECreateArtifact o _ k i _ _ _ => o = org /\ k = kind /\ i = id
  | ELogWarning _ _ => False
  | ELogError _ k i o _ _ => o = org /\ k = kind /\ i = id
  end.

(** ** A store that finds what was created

    What a later save relies on to meet the artifacts of an earlier one,
    for the entity [ids] of organization [org]: some fact [has ty] about
    the services' state that a successful creation of type [ty]
    establishes, that no collaborator call undoes, and under which the
    lookup for [ty] answers with an artifact. *)
Record StoreFindsCreated {St} (app : App St) (ids : EntityIds) (org : string)
    (has : ArtifactType -> St -> Prop) : Prop := {
  created_is_held : forall kind id ty data s s',
    create_log_artifact app org ids kind id ty data s = (Return tt, s') -> has ty s';
  held_is_found : forall ty s,
    has ty s ->
    exists a s', get_artifact_by_entity_id app ty ids org s = (Return (Some a), s');
  dumps_keeps : forall ty log s,
    has ty s -> has ty (snd (json_dumps app log s));
  format_keeps : forall ty log s,
    has ty s -> has ty (snd (format_encode app log s));
  get_keeps : forall ty ty' ids' org' s,
    has ty s -> has ty (snd (get_artifact_by_entity_id app ty' ids' org' s));
  update_keeps : forall ty a o d k s,
    has ty s -> has ty (snd (update_artifact_data app a o d k s));
  create_keeps : forall ty o i k e ty' d s,
    has ty s -> has ty (snd (create_log_artifact app o i k e ty' d s))
}.

(** An in-memory stand-in for the store and the manager: a list of
    stored artifacts, looked up by type, entity-id fields and
    organization, extended by a creation, rewritten in place by an
    update. *)
Record StoredArtifact : Type := {
  stored_type : ArtifactType;
  stored_ids : EntityIds;
  stored_org : string;
  stored_id : string;
  stored_data : list Byte.byte
}.

#[global] Instance EntityIds_eq_dec : EqDecision EntityIds.
Proof. solve_decision. Defined.

Definition stored_matches (ty : ArtifactType) (ids : EntityIds) (org : string)
    (x : StoredArtifact) : bool :=
  bool_decide (stored_type x = ty) && bool_decide (stored_ids x = ids) &&
  String.eqb (stored_org x) org.

Definition memory_app : App (list StoredArtifact) := {|
  json_dumps := fun _ s => (Return "[]", s);
  format_encode := fun _ s => (Return "-", s);
  get_artifact_by_entity_id := fun ty ids org s =>
    (Return (match List.find (stored_matches ty ids org) s with
             | Some x => Some {| artifact_id := stored_id x |}
             | None => None
             end), s);
  update_artifact_data := fun a _ d _ s =>
    (Return tt,
     List.map (fun x =>
                 if String.eqb (stored_id x) a
                 then {| stored_type := stored_type x; stored_ids := stored_ids x;
                         stored_org := stored_org x; stored_id := stored_id x;
                         stored_data := d |}
                 else x) s);
  create_log_artifact := fun org ids _ id ty d s =>
    (Return tt,
     (s ++ [{| stored_type := ty; stored_ids := ids; stored_org := org;
               stored_id := (match ty with
                             | SKYVERN_LOG_RAW => "raw-"
                             | SKYVERN_LOG => "log-"
                             end) ++ id;
               stored_data := d |}])%list)
|}.

Definition memory_has (ids : EntityIds) (org : string) (ty : ArtifactType)
    (s : list StoredArtifact) : Prop :=
  exists x, In x s /\ stored_matches ty ids org x = true.

(** ** The enumerations of skyvern/forge/sdk/schemas/observers.py *)

(** A [StrEnum] class: its name, its members in definition order, and the
    string each one stands for. *)
Record StrEnum (A : Type) : Type := {
  enum_name : string;
  members : list A;
  value_of : A -> string
}.
Arguments enum_name {A} _.
Arguments members {A} _.
Arguments value_of {A} _ _.

(** Calling the class on a string, [Cls(v)]: the first member with that
    value, or a [ValueError] whose message starts with [repr(v)].  Python's
    [repr] of a [str] (quoting, escapes) is taken as the parameter
    [py_repr]. *)
Definition enum_call {A} (py_repr : string -> string) (E : StrEnum A) (v : string)
  : Outcome A :=
  match List.find (fun m => String.eqb (value_of E m) v) (members E) with
  | Some m => Return m
  | None => Raise (ValueError (py_repr v ++ " is not a valid " ++ enum_name E))
  end.

Module ObserverCruiseStatus.
(** lines 12-20 *)
Inductive t : Type :=
| created | queued | running | failed | terminated | canceled | timed_out
| completed.

Definition value (m : t) : string :=
  match m with
  | created => "created"
  | queued => "queued"
  | running => "running"
  | failed => "failed"
  | terminated => "terminated"
  | canceled => "canceled"
  | timed_out => "timed_out"
  | completed => "completed"
  end.

Definition cls : StrEnum t := {|
  enum_name := "ObserverCruiseStatus";
  members := [created; queued; running; failed; terminated; canceled; timed_out;
              completed];
  value_of := value
|}.
End ObserverCruiseStatus.

Module ObserverThoughtType.
(** lines 41-45 *)
Inductive t : Type :=
| plan | metadata | user_goal_check | internal_plan.

Definition value (m : t) : string :=
  match m with
  | plan => "plan"
  | metadata => "metadata"
  | user_goal_check => "user_goal_check"
  | internal_plan => "internal_plan"
  end.

Definition cls : StrEnum t := {|
  enum_name := "ObserverThoughtType";
  members := [plan; metadata; user_goal_check; internal_plan];
  value_of := value
|}.
End ObserverThoughtType.

Module ObserverThoughtScenario.
(** lines 48-55; [generate_task] stands for a string other than its
    name. *)
Inductive t : Type :=
| generate_plan | user_goal_check | summarization | generate_metadata
| extract_loop_values | generate_task_in_loop | generate_task.

Definition value (m : t) : string :=
  match m with
  | generate_plan => "generate_plan"
  | user_goal_check => "user_goal_check"
  | summarization => "summarization"
  | generate_metadata => "generate_metadata"
  | extract_loop_values => "extract_loop_values"
  | generate_task_in_loop => "generate_task_in_loop"
  | generate_task => "generate_general_task"
  end.

Definition cls : StrEnum t := {|
  enum_name := "ObserverThoughtScenario";
  members := [generate_plan; user_goal_check; summarization; generate_metadata;
              extract_loop_values; generate_task_in_loop; generate_task];
  value_of := value
|}.
End ObserverThoughtScenario.

(** The call on a value inverts [.value]: it answers each member from its
    own value, answers nothing but a member with the value asked for, and
    raises on a string that is no member's value. *)
Definition value_round_trips {A} (py_repr : string -> string) (E : StrEnum A) : Prop :=
  (forall m, enum_call py_repr E (value_of E m) = Return m) /\
  (forall v m, enum_call py_repr E v = Return m -> value_of E m = v) /\
  (forall v, (forall m, value_of E m <> v) ->
             enum_call py_repr E v =
             Raise (ValueError (py_repr v ++ " is not a valid " ++ enum_name E))).

(** * Properties *)

(** ** The context log filter *)

Lemma py_eq_str_spec (x : PyValue) (value : string) :
  py_eq x (PyStr value) = bool_decide (x = PyStr value).
Proof.
  destruct x as [ | b | z | s]; simpl; try reflexivity.
  destruct (String.eqb_spec s value) as [-> | Hne].
  - symmetry. now apply bool_decide_eq_true.
  - symmetry. apply bool_decide_eq_false. congruence.
Qed.

(** An entry matches exactly when the value found, or the empty string
    when the field is absent, is the string looked for. *)
Lemma select_entries_test (entry : LogEntry) (field value : string) :
  py_eq (dict_get entry field (PyStr EmptyString)) (PyStr value) = true <->
  entry !! field = Some (PyStr value) \/
  (entry !! field = None /\ value = EmptyString).
Proof.
  rewrite py_eq_str_spec, bool_decide_eq_true. unfold dict_get.
  destruct (entry !! field) as [x | ]; split.
  - intros ->. now left.
  - intros [[= ->] | [[=] _]]. reflexivity.
  - intros [= <-]. right. split; reflexivity.
  - intros [[=] | [_ ->]]. reflexivity.
Qed.

Lemma filter_sublist {A} (p : A -> bool) (l : list A) : sublist (List.filter p l) l.
Proof.
  induction l as [ | a l IH]; simpl.
  - constructor.
  - destruct (p a); now constructor.
Qed.

(** C1, as the specification words it, fails at the empty-string value:
    the one entry of the buffer lacks [step_id], the specification's
    filter drops it, the code keeps it. *)
Lemma select_entries_keeps_missing_field :
  (∅ : LogEntry) !! "step_id" = None /\
  spec_filter "step_id" EmptyString [∅] = [] /\
  select_entries "step_id" EmptyString [∅] = [∅].
Proof. repeat split. Qed.

(** C1 (amended): for every buffer, field name and non-empty value, the
    filter returns exactly the subsequence of the entries whose field is
    present and equal to the value, in the buffer's order; entries
    lacking the field are excluded.  The filter is a total function: no
    entry makes it raise. *)
Theorem select_entries_spec (field value : string) (log : list LogEntry) :
  value <> EmptyString ->
  select_entries field value log = spec_filter field value log /\
  sublist (select_entries field value log) log /\
  (forall entry, In entry (select_entries field value log) <->
                 In entry log /\ entry !! field = Some (PyStr value)) /\
  (forall entry, entry !! field = None ->
                 ~ In entry (select_entries field value log)).
Proof.
  intros Hne.
  assert (Htest : forall entry : LogEntry,
    py_eq (dict_get entry field (PyStr EmptyString)) (PyStr value) = true <->
    entry !! field = Some (PyStr value)).
  { intros entry. rewrite select_entries_test. intuition congruence. }
  split; [ | split; [ | split]].
  - unfold select_entries, spec_filter. apply filter_ext. intros entry.
    apply eq_true_iff_eq. rewrite Htest, bool_decide_eq_true. reflexivity.
  - apply filter_sublist.
  - intros entry. unfold select_entries. rewrite filter_In, Htest. reflexivity.
  - intros entry Hnone Hin. apply filter_In in Hin. destruct Hin as [_ Hin].
    apply Htest in Hin. congruence.
Qed.

Lemma select_entries_spec_witness :
  let e1 : LogEntry := {[ "step_id" := PyStr "s1" ]} in
  let log := [e1; ∅; e1] in
  "s1" <> EmptyString /\
  select_entries "step_id" "s1" log = spec_filter "step_id" "s1" log /\
  select_entries "step_id" "s1" log = [e1; e1].
Proof.
  intros e1 log.
  assert (Hne : "s1" <> EmptyString) by discriminate.
  split; [exact Hne | ].
  split; [exact (proj1 (select_entries_spec "step_id" "s1" log Hne)) | ].
  vm_compute. reflexivity.
Defined.

(** ** Runs on scripted collaborators *)

(** With an empty store the reconciler encodes, looks up and creates,
    once per artifact type, raw first. *)
Example run_on_empty_store :
  let ids := EntityIdFields (Some "s1") None None None in
  _save_log_artifacts (scripted healthy_empty) [] STEP "s1" "o1"
    (Some "s1") None None None (world0 None) =
  (Return tt, world0 None,
   [EJsonDumps [] (Return "[]");
    EGetArtifact SKYVERN_LOG_RAW ids "o1" (Return None);
    ECreateArtifact "o1" ids STEP "s1" SKYVERN_LOG_RAW (utf8_bytes "[]") (Return tt);
    EFormatEncode [] (Return "-");
    EGetArtifact SKYVERN_LOG ids "o1" (Return None);
    ECreateArtifact "o1" ids STEP "s1" SKYVERN_LOG (utf8_bytes "-") (Return tt)]).
Proof. reflexivity. Qed.

(** With both artifacts stored it updates them instead. *)
Example run_on_existing_artifacts :
  let ids := EntityIdFields None None (Some "w1") None in
  _save_log_artifacts (scripted healthy_existing) [] WORKFLOW_RUN "w1" "o1"
    None None (Some "w1") None (world0 None) =
  (Return tt, world0 None,
   [EJsonDumps [] (Return "[]");
    EGetArtifact SKYVERN_LOG_RAW ids "o1" (Return (Some {| artifact_id := "a_raw" |}));
    EUpdateArtifact "a_raw" "o1" (utf8_bytes "[]") "workflow_run_id" (Return tt);
    EFormatEncode [] (Return "-");
    EGetArtifact SKYVERN_LOG ids "o1" (Return (Some {| artifact_id := "a_fmt" |}));
    EUpdateArtifact "a_fmt" "o1" (utf8_bytes "-") "workflow_run_id" (Return tt)]).
Proof. reflexivity. Qed.

(** A failing raw encoder leaves the world as it was: the next call, with
    healthy collaborators, runs as on a fresh world. *)
Example run_after_failed_run :
  let failed := _save_log_artifacts (scripted failing_dumps) [] STEP "s1" "o1"
                  (Some "s1") None None None (world0 None) in
  outcome_of failed = Return tt /\
  _save_log_artifacts (scripted healthy_empty) [] STEP "s1" "o1"
    (Some "s1") None None None (world_of failed) =
  _save_log_artifacts (scripted healthy_empty) [] STEP "s1" "o1"
    (Some "s1") None None None (world0 None).
Proof. split; reflexivity. Qed.

(** ** The reconciler *)

Lemma encode_cases (s : string) :
  (exists data, encode s = Return data) \/
  encode s = Raise (UnicodeEncodeError "surrogates not allowed").
Proof. unfold encode. destruct (has_surrogate s); eauto. Qed.

Lemma primary_key_cases (kind : LogEntityType) :
  (exists pk, primary_key_from_log_entity_type kind = Return pk) \/
  (exists msg, primary_key_from_log_entity_type kind = Raise (ValueError msg)).
Proof. destruct kind; simpl; eauto. Qed.

(** Runs the collaborator calls of a goal one after the other, splitting
    on what each answers, on whether a payload can be encoded, and on
    whether a raise is one the handler takes. *)
Ltac run_calls :=
  repeat match goal with
  | |- context [json_dumps ?a ?l ?s] =>
      destruct (json_dumps a l s) as [[? | ?] ?]; simpl
  | |- context [format_encode ?a ?l ?s] =>
      destruct (format_encode a l s) as [[? | ?] ?]; simpl
  | |- context [get_artifact_by_entity_id ?a ?t ?i ?o ?s] =>
      destruct (get_artifact_by_entity_id a t i o s) as [[[? | ] | ?] ?]; simpl
  | |- context [update_artifact_data ?a ?i ?o ?d ?k ?s] =>
      destruct (update_artifact_data a i o d k s) as [[[] | ?] ?]; simpl
  | |- context [create_log_artifact ?a ?o ?i ?k ?e ?t ?d ?s] =>
      destruct (create_log_artifact a o i k e t d s) as [[[] | ?] ?]; simpl
  | |- context [encode ?s] =>
      let H := fresh "Henc" in
      destruct (encode_cases s) as [[? H] | H]; rewrite H; simpl
  | |- context [primary_key_from_log_entity_type ?k] =>
      let H := fresh "Hkey" in
      destruct (primary_key_cases k) as [[? H] | [? H]]; rewrite H; simpl
  | |- context [is_exception ?e] =>
      destruct (is_exception e) eqn:?; simpl
  end.

Ltac split_ors :=
  repeat match goal with
  | H : _ \/ _ |- _ => destruct H
  | H : False |- _ => destruct H
  end.

(** Membership in an explicit list of calls. *)
Ltac find_in := simpl; repeat first [left; reflexivity | right].

(** Membership in an explicit list of calls, open to a later choice. *)
Ltac pick_in := simpl; ((left; reflexivity) + (right; pick_in)).

Ltac unfold_run :=
  unfold reconcile, _save_log_artifacts, try_except, bind, call, lift, emit,
    outcome_of, trace_of, world_of; simpl.

(** What the reconciler raises was raised by a collaborator call and is
    no instance of [Exception]. *)
Lemma reconciler_raise_origin {St} (app : App St)
    (log : list LogEntry) (kind : LogEntityType) (id org : string)
    (sid tid wid bid : option string) (w : World St) (e : PyExc) :
  let r := _save_log_artifacts app log kind id org sid tid wid bid w in
  outcome_of r = Raise e ->
  is_exception e = false /\
  (exists ev, In ev (trace_of r) /\ event_raised ev = Some e) /\
  List.filter is_error_log (trace_of r) = [].
Proof.
  revert e. unfold_run. run_calls; intros exc Hout; try discriminate;
    injection Hout as <-; (split; [assumption | ]);
    (split; [eexists; split; [pick_in | reflexivity] | reflexivity]).
Qed.





(** The body of the [try] block is the raw pass followed by the formatted
    pass. *)
Lemma save_log_artifacts_passes {St} (app : App St)
    (log : list LogEntry) (kind : LogEntityType) (id org : string)
    (sid tid wid bid : option string) (w : World St) :
  _save_log_artifacts app log kind id org sid tid wid bid w =
  try_except
    (let* _ := raw_pass app log kind id org (EntityIdFields sid tid wid bid) in
     formatted_pass app log kind id org (EntityIdFields sid tid wid bid))
    (fun e =>
       emit (ELogError "Failed to save log artifacts" kind id org
               (EntityIdFields sid tid wid bid) e)) w.
Proof.
  unfold _save_log_artifacts, raw_pass, formatted_pass, try_except, bind, call, lift.
  simpl. run_calls; reflexivity.
Qed.

(** C5, as the specification words it, fails when the payload cannot be
    encoded: the formatted encoder renders a lone surrogate, the lookup
    answers with the stored formatted artifact, and [formatted_log.encode()]
    raises while the arguments of the update are evaluated.  No update is
    issued for that artifact; the error is logged. *)
Lemma unencodable_payload_is_not_updated :
  let ids := EntityIdFields None (Some "t1") None None in
  let r := _save_log_artifacts (scripted surrogate_format_existing) [] TASK "t1" "o1"
             None (Some "t1") None None (world0 None) in
  primary_key_from_log_entity_type TASK = Return "task_id" /\
  In (EGetArtifact SKYVERN_LOG ids "o1" (Return (Some {| artifact_id := "a_fmt" |})))
     (trace_of r) /\
  (forall o d k res, ~ In (EUpdateArtifact "a_fmt" o d k res) (trace_of r)) /\
  last (trace_of r) =
    Some (ELogError "Failed to save log artifacts" TASK "t1" "o1" ids
            (UnicodeEncodeError "surrogates not allowed")).
Proof.
  split; [reflexivity | ]. split; [do 4 right; left; reflexivity | ].
  split; [ | reflexivity].
  intros o d k res Hin. simpl in Hin. intuition discriminate.
Qed.

(** C5 (amended): in either pass, when the lookup answers with an
    existing artifact of the pass's type, the reconciler issues no
    [create_log_artifact] for that type and, provided the pass's payload
    can be encoded as UTF-8, calls [update_artifact_data] with that
    artifact's id, the encoded payload and the primary-key name of the
    entity kind ([step_id], [task_id], [workflow_run_id],
    [workflow_run_block_id]). *)
Theorem existing_artifact_is_updated {St} (app : App St)
    (log : list LogEntry) (kind : LogEntityType) (id org : string)
    (sid tid wid bid : option string) (w : World St)
    (pk : string) (ty : ArtifactType) (a : Artifact)
    (ids' : EntityIds) (org' : string) :
  let r := _save_log_artifacts app log kind id org sid tid wid bid w in
  primary_key_from_log_entity_type kind = Return pk ->
  In (EGetArtifact ty ids' org' (Return (Some a))) (trace_of r) ->
  (forall payload data,
     In (pass_encoding ty log (Return payload)) (trace_of r) ->
     encode payload = Return data ->
     exists res,
       In (EUpdateArtifact (artifact_id a) org data pk res) (trace_of r)) /\
  (forall o i k e d res, ~ In (ECreateArtifact o i k e ty d res) (trace_of r)) /\
  pk = match kind with
       | STEP => "step_id"
       | TASK => "task_id"
       | WORKFLOW_RUN => "workflow_run_id"
       | WORKFLOW_RUN_BLOCK => "workflow_run_block_id"
       | UNRECOGNIZED _ => pk
       end.
Proof.
  intros r Hpk. subst r. unfold_run. rewrite Hpk. simpl.
  run_calls; intros Hin; simpl in Hin; split_ors; try discriminate;
    match goal with
    | H : EGetArtifact _ _ _ _ = EGetArtifact _ _ _ _ |- _ =>
        injection H as <- <- <- <-
    end;
    (split;
     [ intros payload bytes Hp Hb; simpl in Hp; split_ors; try discriminate;
       match goal with
       | H : _ _ (Return _) = _ _ (Return payload) |- _ => injection H as <-
       end;
       match goal with
       | H : encode ?s = _, H' : encode ?s = _ |- _ => rewrite H in H'
       end;
       try discriminate;
       match goal with
       | H : Return _ = Return bytes |- _ => injection H as <-
       end;
       eexists; find_in
     | ]);
    (split; [intros; simpl; intuition discriminate | ]);
    destruct kind; simpl in Hpk; congruence.
Qed.

Lemma existing_artifact_is_updated_witness :
  let r := _save_log_artifacts (scripted healthy_existing) [] TASK "t1" "o1"
             None (Some "t1") None None (world0 None) in
  let a := {| artifact_id := "a_raw" |} in
  primary_key_from_log_entity_type TASK = Return "task_id" /\
  In (EGetArtifact SKYVERN_LOG_RAW (EntityIdFields None (Some "t1") None None)
        "o1" (Return (Some a))) (trace_of r) /\
  In (EJsonDumps [] (Return "[]")) (trace_of r) /\
  encode "[]" = Return (utf8_bytes "[]") /\
  (exists res,
     In (EUpdateArtifact "a_raw" "o1" (utf8_bytes "[]") "task_id" res) (trace_of r)).
Proof.
  intros r a.
  assert (Hpk : primary_key_from_log_entity_type TASK = Return "task_id")
    by reflexivity.
  assert (Hin : In (EGetArtifact SKYVERN_LOG_RAW
                      (EntityIdFields None (Some "t1") None None)
                      "o1" (Return (Some a))) (trace_of r))
    by (right; left; reflexivity).
  assert (Hp : In (pass_encoding SKYVERN_LOG_RAW [] (Return "[]")) (trace_of r))
    by (left; reflexivity).
  assert (Hb : encode "[]" = Return (utf8_bytes "[]")) by reflexivity.
  split; [exact Hpk | ]. split; [exact Hin | ]. split; [exact Hp | ].
  split; [exact Hb | ].
  exact (proj1 (existing_artifact_is_updated (scripted healthy_existing) [] TASK
                  "t1" "o1" None (Some "t1") None None (world0 None)
                  "task_id" SKYVERN_LOG_RAW a _ _ Hpk Hin) _ _ Hp Hb).
Defined.

(** C6, as the specification words it, fails when a payload cannot be
    encoded: both lookups answer [None], the formatted encoder renders a
    lone surrogate, and [formatted_log.encode()] raises while the
    arguments of the second creation are evaluated.  One artifact is
    created, not two; the error is logged. *)
Lemma unencodable_payload_is_created_once :
  let ids := EntityIdFields (Some "s1") None None None in
  let r := _save_log_artifacts (scripted surrogate_format_empty) [] STEP "s1" "o1"
             (Some "s1") None None None (world0 None) in
  In (EGetArtifact SKYVERN_LOG_RAW ids "o1" (Return None)) (trace_of r) /\
  In (EGetArtifact SKYVERN_LOG ids "o1" (Return None)) (trace_of r) /\
  List.filter is_manager_call (trace_of r) =
    [ECreateArtifact "o1" ids STEP "s1" SKYVERN_LOG_RAW (utf8_bytes "[]") (Return tt)] /\
  last (trace_of r) =
    Some (ELogError "Failed to save log artifacts" STEP "s1" "o1" ids
            (UnicodeEncodeError "surrogates not allowed")).
Proof.
  split; [right; left; reflexivity | ]. split; [do 4 right; left; reflexivity | ].
  split; reflexivity.
Qed.

(** C6 (amended): when, in one call of the reconciler, the lookup answers
    [None] for the raw log and for the formatted log, and the formatted
    payload can be encoded as UTF-8 (the raw one then was), the artifact
    manager is called exactly twice, both times to create: first the raw
    artifact with the raw encoder's payload, then the formatted artifact
    with the formatted encoder's payload.  No update is issued. *)
Theorem absent_artifacts_are_created {St} (app : App St)
    (log : list LogEntry) (kind : LogEntityType) (id org : string)
    (sid tid wid bid : option string) (w : World St)
    (ids1 ids2 : EntityIds) (org1 org2 : string) :
  let r := _save_log_artifacts app log kind id org sid tid wid bid w in
  let ids := EntityIdFields sid tid wid bid in
  In (EGetArtifact SKYVERN_LOG_RAW ids1 org1 (Return None)) (trace_of r) ->
  In (EGetArtifact SKYVERN_LOG ids2 org2 (Return None)) (trace_of r) ->
  forall fmt data2,
    In (EFormatEncode log (Return fmt)) (trace_of r) ->
    encode fmt = Return data2 ->
    exists raw data1 res1 res2,
      In (EJsonDumps log (Return raw)) (trace_of r) /\
      encode raw = Return data1 /\
      List.filter is_manager_call (trace_of r) =
        [ECreateArtifact org ids kind id SKYVERN_LOG_RAW data1 res1;
         ECreateArtifact org ids kind id SKYVERN_LOG data2 res2].
Proof.
  intros r ids. subst r ids. unfold_run.
  run_calls; intros Hraw Hfmt fmt bytes Hp Hb; simpl in Hraw, Hfmt, Hp;
    split_ors; try discriminate;
    match goal with
    | H : EFormatEncode _ (Return _) = EFormatEncode _ (Return fmt) |- _ =>
        injection H as <-
    end;
    match goal with
    | H : encode ?s = _, H' : encode ?s = _ |- _ => rewrite H in H'
    end;
    try discriminate;
    match goal with
    | H : Return _ = Return bytes |- _ => injection H as <-
    end;
    do 4 eexists; (split; [find_in | ]); (split; [eassumption | ]); reflexivity.
Qed.

Lemma absent_artifacts_are_created_witness :
  let r := _save_log_artifacts (scripted healthy_empty) [] STEP "s1" "o1"
             (Some "s1") None None None (world0 None) in
  let ids := EntityIdFields (Some "s1") None None None in
  In (EGetArtifact SKYVERN_LOG_RAW ids "o1" (Return None)) (trace_of r) /\
  In (EGetArtifact SKYVERN_LOG ids "o1" (Return None)) (trace_of r) /\
  In (EFormatEncode [] (Return "-")) (trace_of r) /\
  encode "-" = Return (utf8_bytes "-") /\
  exists raw data1 res1 res2,
    In (EJsonDumps [] (Return raw)) (trace_of r) /\
    encode raw = Return data1 /\
    List.filter is_manager_call (trace_of r) =
      [ECreateArtifact "o1" ids STEP "s1" SKYVERN_LOG_RAW data1 res1;
       ECreateArtifact "o1" ids STEP "s1" SKYVERN_LOG (utf8_bytes "-") res2].
Proof.
  intros r ids.
  assert (Hraw : In (EGetArtifact SKYVERN_LOG_RAW ids "o1" (Return None)) (trace_of r))
    by (right; left; reflexivity).
  assert (Hfmt : In (EGetArtifact SKYVERN_LOG ids "o1" (Return None)) (trace_of r))
    by (do 4 right; left; reflexivity).
  assert (Hp : In (EFormatEncode [] (Return "-")) (trace_of r))
    by (do 3 right; left; reflexivity).
  assert (Hb : encode "-" = Return (utf8_bytes "-")) by reflexivity.
  split; [exact Hraw | ]. split; [exact Hfmt | ]. split; [exact Hp | ].
  split; [exact Hb | ].
  exact (absent_artifacts_are_created (scripted healthy_empty) [] STEP "s1" "o1"
           (Some "s1") None None None (world0 None) _ _ _ _ Hraw Hfmt _ _ Hp Hb).
Defined.

(** The raw pass issues no call of the formatted pass and one manager
    call at most. *)
Lemma raw_pass_calls {St} (app : App St) (log : list LogEntry)
    (kind : LogEntityType) (id org : string) (ids : EntityIds) (w w1 : World St)
    (o : Outcome unit) (t1 : list Event) :
  raw_pass app log kind id org ids w = (o, w1, t1) ->
  List.filter is_formatted_call t1 = [] /\
  length (List.filter is_manager_call t1) <= 1 /\
  List.filter is_error_log t1 = [].
Proof.
  unfold raw_pass, bind, call, lift. simpl.
  run_calls; intros [= <- <- <-]; simpl; repeat split; lia.
Qed.

(** C10: when a step of the raw pass raises (the raw encoder, the raw
    lookup, the encoding of the payload, the primary-key derivation or
    the update, or the creation), the call ends there: an instance of
    [Exception] is logged and the reconciler returns, anything else is
    raised on; either way the trace holds no formatted encoding, no
    lookup and no creation for the formatted log, and at most the one
    manager call of the raw pass. *)
Theorem raw_failure_skips_formatted_pass {St} (app : App St)
    (log : list LogEntry) (kind : LogEntityType) (id org : string)
    (sid tid wid bid : option string) (w w1 : World St)
    (e : PyExc) (t1 : list Event) :
  let ids := EntityIdFields sid tid wid bid in
  let r := _save_log_artifacts app log kind id org sid tid wid bid w in
  raw_pass app log kind id org ids w = (Raise e, w1, t1) ->
  r = (if is_exception e
       then (Return tt, w1,
             (t1 ++ [ELogError "Failed to save log artifacts" kind id org ids e])%list)
       else (Raise e, w1, t1)) /\
  List.filter is_formatted_call (trace_of r) = [] /\
  length (List.filter is_manager_call (trace_of r)) <= 1.
Proof.
  intros ids r Hraw. subst r. rewrite save_log_artifacts_passes. fold ids.
  destruct (raw_pass_calls _ _ _ _ _ _ _ _ _ _ Hraw) as [Hfmt [Hman _]].
  unfold try_except, bind. rewrite Hraw. unfold emit, trace_of.
  destruct (is_exception e); simpl;
    (split; [reflexivity | ]); [ | split; assumption].
  rewrite !List.filter_app, List.length_app, Hfmt. simpl. split; [reflexivity | lia].
Qed.

Lemma raw_failure_skips_formatted_pass_witness :
  let exc := OtherException "TypeError" "not JSON serializable" in
  let ids := EntityIdFields None (Some "t1") None None in
  let r := _save_log_artifacts (scripted failing_dumps) [] TASK "t1" "o1"
             None (Some "t1") None None (world0 None) in
  raw_pass (scripted failing_dumps) [] TASK "t1" "o1" ids (world0 None) =
    (Raise exc, world0 None, [EJsonDumps [] (Raise exc)]) /\
  r = (Return tt, world0 None,
       [EJsonDumps [] (Raise exc);
        ELogError "Failed to save log artifacts" TASK "t1" "o1" ids exc]) /\
  List.filter is_formatted_call (trace_of r) = [].
Proof.
  intros exc ids r.
  assert (Hraw : raw_pass (scripted failing_dumps) [] TASK "t1" "o1" ids (world0 None) =
                 (Raise exc, world0 None, [EJsonDumps [] (Raise exc)]))
    by reflexivity.
  pose proof (raw_failure_skips_formatted_pass (scripted failing_dumps) [] TASK
                "t1" "o1" None (Some "t1") None None (world0 None) (world0 None)
                exc [EJsonDumps [] (Raise exc)] Hraw) as [Hrun [Hfmt _]].
  split; [exact Hraw | ]. split; [exact Hrun | exact Hfmt].
Defined.

(** ** Unrecognized entity kinds *)

(** C2, as the specification words it, fails: with an unrecognized kind
    and an existing raw artifact, the derivation of the primary key
    raises inside the [try] block, the handler logs the [ValueError], and
    the reconciler returns normally to its caller. *)
Lemma unrecognized_kind_error_is_caught :
  let ids := EntityIdFields None None None None in
  let exc := ValueError "Invalid log entity type: bogus" in
  primary_key_from_log_entity_type (UNRECOGNIZED "bogus") = Raise exc /\
  _save_log_artifacts (scripted healthy_existing) [] (UNRECOGNIZED "bogus")
    "x1" "o1" None None None None (world0 None) =
  (Return tt, world0 None,
   [EJsonDumps [] (Return "[]");
    EGetArtifact SKYVERN_LOG_RAW ids "o1" (Return (Some {| artifact_id := "a_raw" |}));
    ELogError "Failed to save log artifacts" (UNRECOGNIZED "bogus") "x1" "o1" ids exc]).
Proof. split; reflexivity. Qed.

(** C2 (amended): for every unrecognized entity kind the derivation of
    the primary-key name raises a [ValueError] at once.  Inside the
    reconciler the error is subject to the error policy like any other
    instance of [Exception]: it is never propagated (what the reconciler
    raises is no instance of [Exception]), no update is issued, and,
    whenever a lookup found an existing artifact whose pass's payload
    could be encoded, so that the derivation is reached, the reconciler
    ends by logging that [ValueError] and returns normally.  The four
    save operations never pass such a kind. *)
Theorem unrecognized_kind_raises_and_is_logged (repr : string) :
  let exc := ValueError ("Invalid log entity type: " ++ repr) in
  primary_key_from_log_entity_type (UNRECOGNIZED repr) = Raise exc /\
  (forall op, op_kind op <> UNRECOGNIZED repr) /\
  forall St (app : App St) (log : list LogEntry) (id org : string)
         (sid tid wid bid : option string) (w : World St),
    let r := _save_log_artifacts app log (UNRECOGNIZED repr) id org
               sid tid wid bid w in
    (forall e, outcome_of r = Raise e -> is_exception e = false) /\
    (forall a o d k res, ~ In (EUpdateArtifact a o d k res) (trace_of r)) /\
    (forall ty ids' org' a payload data,
       In (EGetArtifact ty ids' org' (Return (Some a))) (trace_of r) ->
       In (pass_encoding ty log (Return payload)) (trace_of r) ->
       encode payload = Return data ->
       outcome_of r = Return tt /\
       last (trace_of r) =
         Some (ELogError "Failed to save log artifacts" (UNRECOGNIZED repr) id org
                 (EntityIdFields sid tid wid bid) exc)).
Proof.
  intros exc. split; [reflexivity | ]. split; [intros []; discriminate | ].
  intros St app log id org sid tid wid bid w r.
  split.
  { intros e Hout.
    exact (proj1 (reconciler_raise_origin app log (UNRECOGNIZED repr) id org
                    sid tid wid bid w e Hout)). }
  subst r. unfold_run.
  run_calls; (split; [intros; simpl; intuition discriminate | ]);
    intros ty ? ? ? payload bytes Hin Hp Hb; simpl in Hin, Hp; split_ors;
    try discriminate;
    match goal with
    | H : EGetArtifact _ _ _ _ = EGetArtifact _ _ _ _ |- _ =>
        injection H as <- <- <- <-
    end;
    simpl in *; try discriminate;
    match goal with
    | H : _ _ (Return _) = _ _ (Return payload) |- _ => injection H as <-
    end;
    match goal with
    | H : encode ?s = _, H' : encode ?s = _ |- _ => rewrite H in H'
    end;
    try discriminate; split; reflexivity.
Qed.

Lemma unrecognized_kind_raises_and_is_logged_witness :
  let ids := EntityIdFields None None None None in
  let exc := ValueError "Invalid log entity type: bogus" in
  let r := _save_log_artifacts (scripted healthy_existing) [] (UNRECOGNIZED "bogus")
             "x1" "o1" None None None None (world0 None) in
  In (EGetArtifact SKYVERN_LOG_RAW ids "o1" (Return (Some {| artifact_id := "a_raw" |})))
     (trace_of r) /\
  In (EJsonDumps [] (Return "[]")) (trace_of r) /\
  encode "[]" = Return (utf8_bytes "[]") /\
  outcome_of r = Return tt /\
  last (trace_of r) =
    Some (ELogError "Failed to save log artifacts" (UNRECOGNIZED "bogus") "x1" "o1"
            ids exc).
Proof.
  intros ids exc r.
  assert (Hin : In (EGetArtifact SKYVERN_LOG_RAW ids "o1"
                      (Return (Some {| artifact_id := "a_raw" |}))) (trace_of r))
    by (right; left; reflexivity).
  assert (Hp : In (pass_encoding SKYVERN_LOG_RAW [] (Return "[]")) (trace_of r))
    by (left; reflexivity).
  assert (Hb : encode "[]" = Return (utf8_bytes "[]")) by reflexivity.
  split; [exact Hin | ]. split; [exact Hp | ]. split; [exact Hb | ].
  pose proof (unrecognized_kind_raises_and_is_logged "bogus") as [_ [_ H]].
  destruct (H unit (scripted healthy_existing) [] "x1" "o1" None None None None
              (world0 None)) as [_ [_ Hlast]].
  exact (Hlast _ _ _ _ _ _ Hin Hp Hb).
Defined.

(** ** The save operations *)

(** C4: without an active context each of the four save operations
    returns normally, leaves the services untouched, and its only action
    is one warning: neither the artifact store nor the artifact manager
    is called. *)
Theorem save_without_context_only_warns {St} (app : App St) (op : SaveOp)
    (id : string) (s : St) :
  let w := {| current := None; services := s |} in
  let r := save_op app op id w in
  r = (Return tt, w,
       [ELogWarning "No Skyvern context found, skipping function execution"
          (op_name op)]) /\
  length (List.filter is_warning (trace_of r)) = 1 /\
  List.filter is_store_call (trace_of r) = [] /\
  List.filter is_manager_call (trace_of r) = [].
Proof. destruct op; repeat split. Qed.

(** Each save operation, in a context, is the reconciler run on the
    entries selected by the operation's own field. *)
Lemma save_op_in_context {St} (app : App St) (op : SaveOp) (id : string)
    (ctx : SkyvernContext) (s : St) :
  let w := {| current := Some ctx; services := s |} in
  save_op app op id w =
  reconcile app (select_entries (op_field op) id (log ctx)) (op_kind op) id
    (organization_id ctx) (op_ids op id) w.
Proof.
  destruct op;
    cbv beta iota zeta delta
      [save_op reconcile save_step_logs save_task_logs save_workflow_run_logs
       save_workflow_run_block_logs with_skyvern_context
       save_step_logs_wrapped save_task_logs_wrapped
       save_workflow_run_logs_wrapped save_workflow_run_block_logs_wrapped
       current_attr skyvern_context_current bind ret current
       op_field op_kind op_ids ids_step_id ids_task_id ids_workflow_run_id
       ids_workflow_run_block_id];
    match goal with
    | |- context [_save_log_artifacts ?a ?l ?k ?i ?o ?x1 ?x2 ?x3 ?x4 ?w] =>
        destruct (_save_log_artifacts a l k i o x1 x2 x3 x4 w) as [[[[] | ?] ?] ?]
    end; reflexivity.
Qed.

(** The specification's example buffer: two entries, for steps [s1] and
    [s2], whatever their other fields. *)
Lemma select_first_of_two (rest1 rest2 : LogEntry) :
  select_entries "step_id" "s1"
    [<["step_id" := PyStr "s1"]> rest1; <["step_id" := PyStr "s2"]> rest2] =
  [<["step_id" := PyStr "s1"]> rest1].
Proof.
  unfold select_entries, dict_get. simpl. rewrite !lookup_insert_eq. reflexivity.
Qed.

(** C7: in a context, each save operation runs the reconciler on exactly
    the entries of the context's buffer that its own field selects (the
    field named like the primary key of its entity kind), with its entity
    kind, the entity id and the context's organization id.  With the
    buffer [[{step_id: s1, ...}, {step_id: s2, ...}]], [save_step_logs]
    of [s1] reconciles the first entry only. *)
Theorem save_op_reconciles_selected_entries {St} (app : App St) (op : SaveOp)
    (id : string) (ctx : SkyvernContext) (s : St) :
  let w := {| current := Some ctx; services := s |} in
  let selected := select_entries (op_field op) id (log ctx) in
  save_op app op id w =
    reconcile app selected (op_kind op) id (organization_id ctx) (op_ids op id) w /\
  primary_key_from_log_entity_type (op_kind op) = Return (op_field op) /\
  sublist selected (log ctx) /\
  (forall entry,
     In entry selected <->
     In entry (log ctx) /\
     py_eq (dict_get entry (op_field op) (PyStr EmptyString)) (PyStr id) = true) /\
  (forall (rest1 rest2 : LogEntry) (org : string),
     let e1 : LogEntry := <["step_id" := PyStr "s1"]> rest1 in
     let e2 : LogEntry := <["step_id" := PyStr "s2"]> rest2 in
     let w12 := {| current := Some {| log := [e1; e2]; organization_id := org |};
                   services := s |} in
     save_step_logs app "s1" w12 =
     _save_log_artifacts app [e1] STEP "s1" org (Some "s1") None None None w12).
Proof.
  intros w selected. split; [apply save_op_in_context | ].
  split; [destruct op; reflexivity | ].
  split; [apply filter_sublist | ].
  split; [intros entry; apply filter_In | ].
  intros rest1 rest2 org e1 e2 w12.
  pose proof (save_op_in_context app SaveStep "s1"
                {| log := [e1; e2]; organization_id := org |} s) as H.
  unfold reconcile, save_op, op_field, op_kind, op_ids in H.
  cbn [ids_step_id ids_task_id ids_workflow_run_id ids_workflow_run_block_id
       log organization_id] in H.
  unfold e1, e2 in H. rewrite select_first_of_two in H. exact H.
Qed.

Lemma save_op_reconciles_selected_entries_witness :
  let e1 : LogEntry := <["step_id" := PyStr "s1"]> {[ "event" := PyStr "click" ]} in
  let e2 : LogEntry := <["step_id" := PyStr "s2"]> {[ "event" := PyStr "type" ]} in
  let w12 := world0 (Some {| log := [e1; e2]; organization_id := "o1" |}) in
  save_step_logs (scripted healthy_empty) "s1" w12 =
  _save_log_artifacts (scripted healthy_empty) [e1] STEP "s1" "o1"
    (Some "s1") None None None w12.
Proof.
  intros e1 e2 w12.
  exact (proj2 (proj2 (proj2 (proj2
    (save_op_reconciles_selected_entries (scripted healthy_empty) SaveStep "s1"
       {| log := []; organization_id := "o1" |} tt))))
    {[ "event" := PyStr "click" ]} {[ "event" := PyStr "type" ]} "o1").
Defined.

(** The entity-id fields of every call of the reconciler are the ones it
    was given. *)
Lemma save_log_artifacts_ids {St} (app : App St)
    (log : list LogEntry) (kind : LogEntityType) (id org : string)
    (sid tid wid bid : option string) (w : World St) (ev : Event) (ids : EntityIds) :
  In ev (trace_of (_save_log_artifacts app log kind id org sid tid wid bid w)) ->
  event_ids ev = Some ids ->
  ids = EntityIdFields sid tid wid bid.
Proof.
  unfold_run. run_calls; intros Hin Hids; simpl in Hin; split_ors; subst;
    simpl in Hids; congruence.
Qed.

(** C8: of the four entity-id fields a save operation hands to the
    reconciler, and the reconciler to the artifact store, the artifact
    manager and the error log, exactly one is not [None]: the field of
    the operation's entity kind, holding the entity id. *)
Theorem save_op_passes_one_entity_id {St} (app : App St) (op : SaveOp)
    (id : string) (w : World St) :
  non_null_fields (op_ids op id) = [(op_field op, id)] /\
  primary_key_from_log_entity_type (op_kind op) = Return (op_field op) /\
  (forall ctx s,
     let w' := {| current := Some ctx; services := s |} in
     save_op app op id w' =
     reconcile app (select_entries (op_field op) id (log ctx)) (op_kind op) id
       (organization_id ctx) (op_ids op id) w') /\
  (forall ev ids,
     In ev (trace_of (save_op app op id w)) -> event_ids ev = Some ids ->
     ids = op_ids op id /\ non_null_fields ids = [(op_field op, id)]).
Proof.
  assert (Hone : non_null_fields (op_ids op id) = [(op_field op, id)])
    by (destruct op; reflexivity).
  split; [exact Hone | ]. split; [destruct op; reflexivity | ].
  split; [intros ctx s; apply save_op_in_context | ].
  intros ev ids Hin Hids.
  assert (Heq : ids = op_ids op id); [ | split; [exact Heq | now rewrite Heq]].
  destruct w as [[ctx | ] s].
  - rewrite save_op_in_context in Hin. unfold reconcile in Hin.
    apply (save_log_artifacts_ids _ _ _ _ _ _ _ _ _ _ _ _ Hin) in Hids.
    rewrite Hids. destruct op; reflexivity.
  - destruct op; simpl in Hin; split_ors; subst; discriminate.
Qed.

Lemma save_op_passes_one_entity_id_witness :
  let w := world0 (Some {| log := []; organization_id := "o1" |}) in
  let ids := EntityIdFields None (Some "t1") None None in
  let ev := EGetArtifact SKYVERN_LOG_RAW ids "o1" (Return None) in
  In ev (trace_of (save_op (scripted healthy_empty) SaveTask "t1" w)) /\
  event_ids ev = Some ids /\
  non_null_fields ids = [("task_id", "t1")].
Proof.
  intros w ids ev.
  assert (Hin : In ev (trace_of (save_op (scripted healthy_empty) SaveTask "t1" w)))
    by (right; left; reflexivity).
  split; [exact Hin | ]. split; [reflexivity | ].
  pose proof (save_op_passes_one_entity_id (scripted healthy_empty) SaveTask "t1" w)
    as [_ [_ [_ H]]].
  exact (proj2 (H ev ids Hin eq_refl)).
Defined.

(** C9: when a save operation is called with the empty string as entity
    id, every entry of the buffer that lacks the operation's field is
    among the entries selected and handed to the reconciler, whose first
    action is to pass them to the raw encoder. *)
Theorem empty_id_selects_entries_without_field {St} (app : App St) (op : SaveOp)
    (ctx : SkyvernContext) (s : St) (entry : LogEntry) :
  let w := {| current := Some ctx; services := s |} in
  let selected := select_entries (op_field op) EmptyString (log ctx) in
  In entry (log ctx) ->
  entry !! op_field op = None ->
  In entry selected /\
  save_op app op EmptyString w =
    reconcile app selected (op_kind op) EmptyString (organization_id ctx)
      (op_ids op EmptyString) w /\
  exists res, head (trace_of (save_op app op EmptyString w)) =
              Some (EJsonDumps selected res).
Proof.
  intros w selected Hin Hnone.
  split.
  - apply filter_In. split; [exact Hin | ].
    apply select_entries_test. right. split; [exact Hnone | reflexivity].
  - split; [apply save_op_in_context | ].
    unfold w. rewrite save_op_in_context. fold selected. unfold_run.
    destruct (json_dumps app selected s) as [[raw | e] s1]; simpl.
    + run_calls; eexists; reflexivity.
    + destruct (is_exception e); eexists; reflexivity.
Qed.

Lemma empty_id_selects_entries_without_field_witness :
  let e0 : LogEntry := {[ "event" := PyStr "boot" ]} in
  let e1 : LogEntry := {[ "workflow_run_block_id" := PyStr "b1" ]} in
  let ctx := {| log := [e0; e1]; organization_id := "o1" |} in
  In e0 (log ctx) /\
  e0 !! "workflow_run_block_id" = None /\
  select_entries "workflow_run_block_id" EmptyString (log ctx) = [e0] /\
  In e0 (select_entries "workflow_run_block_id" EmptyString (log ctx)).
Proof.
  intros e0 e1 ctx.
  assert (Hin : In e0 (log ctx)) by (left; reflexivity).
  assert (Hnone : e0 !! op_field SaveWorkflowRunBlock = None) by reflexivity.
  split; [exact Hin | ]. split; [exact Hnone | ]. split; [reflexivity | ].
  exact (proj1 (empty_id_selects_entries_without_field (scripted healthy_empty)
                  SaveWorkflowRunBlock ctx tt e0 Hin Hnone)).
Defined.

(** * Further properties of the module *)

(** ** The reconciler, call by call *)

Lemma reconciler_events_agree {St} (app : App St)
    (log : list LogEntry) (kind : LogEntityType) (id org : string)
    (sid tid wid bid : option string) (w : World St) (ev : Event) :
  In ev (trace_of (_save_log_artifacts app log kind id org sid tid wid bid w)) ->
  event_agrees log kind id org ev.
Proof.
  unfold_run. run_calls; intros Hin; simpl in Hin; split_ors; subst; simpl;
    auto.
Qed.

(** X1: a save operation lets no instance of [Exception] through.  If it
    raises, with or without a context, what it raises was raised by a
    collaborator call of its trace and is no instance of [Exception] (a
    cancellation, an interpreter exit), and no error was logged; when no
    collaborator call raises such a thing, the operation returns [None]
    to its caller, whatever else the encoders, the store and the manager
    do. *)
Theorem save_op_swallows_exceptions {St} (app : App St) (op : SaveOp) (id : string)
    (w : World St) :
  let r := save_op app op id w in
  (forall e,
     outcome_of r = Raise e ->
     is_exception e = false /\
     (exists ev, In ev (trace_of r) /\ event_raised ev = Some e) /\
     List.filter is_error_log (trace_of r) = []) /\
  ((forall ev e, In ev (trace_of r) -> event_raised ev = Some e ->
                 is_exception e = true) ->
   outcome_of r = Return tt).
Proof.
  intros r.
  assert (Horigin : forall e,
            outcome_of r = Raise e ->
            is_exception e = false /\
            (exists ev, In ev (trace_of r) /\ event_raised ev = Some e) /\
            List.filter is_error_log (trace_of r) = []).
  { subst r. destruct w as [[ctx | ] s].
    - rewrite save_op_in_context. unfold reconcile. intros e.
      apply reconciler_raise_origin.
    - destruct op; intros e Hout; discriminate. }
  split; [exact Horigin | ].
  intros Hall. destruct (outcome_of r) as [[] | e] eqn:Hout; [reflexivity | ].
  destruct (Horigin e eq_refl) as [Hno [[ev [Hin Hev]] _]].
  rewrite (Hall ev e Hin Hev) in Hno. discriminate.
Qed.

Lemma save_op_swallows_exceptions_witness :
  let ctx := {| log := []; organization_id := "o1" |} in
  let r := save_op (scripted failing_format) SaveStep "s1" (world0 (Some ctx)) in
  (forall ev e, In ev (trace_of r) -> event_raised ev = Some e ->
                is_exception e = true) /\
  outcome_of r = Return tt.
Proof.
  intros ctx r.
  assert (Hall : forall ev e, In ev (trace_of r) -> event_raised ev = Some e ->
                              is_exception e = true).
  { intros ev e Hin Hev. simpl in Hin. split_ors; subst; simpl in Hev;
      try discriminate. injection Hev as <-. reflexivity. }
  split; [exact Hall | ].
  exact (proj2 (save_op_swallows_exceptions (scripted failing_format) SaveStep "s1"
                  (world0 (Some ctx))) Hall).
Defined.

(** X2: one call of the reconciler starts with the raw encoder, on the
    log it was given, and issues at most two encoder calls, two store
    lookups, two manager calls and one error log, seven calls in all; it
    logs no warning. *)
Theorem save_log_artifacts_call_budget {St} (app : App St)
    (log : list LogEntry) (kind : LogEntityType) (id org : string)
    (sid tid wid bid : option string) (w : World St) :
  let t := trace_of (_save_log_artifacts app log kind id org sid tid wid bid w) in
  (exists res, head t = Some (EJsonDumps log res)) /\
  length (List.filter is_encoder_call t) <= 2 /\
  length (List.filter is_store_call t) <= 2 /\
  length (List.filter is_manager_call t) <= 2 /\
  length (List.filter is_error_log t) <= 1 /\
  List.filter is_warning t = [] /\
  length t <= 7.
Proof.
  unfold_run. run_calls; (split; [eexists; reflexivity | ]); simpl;
    repeat split; lia.
Qed.

(** X3: the reconciler logs an error only for a failure.  An error log in
    the trace is its last entry, and its exception was raised by a
    collaborator call of the trace, by the encoding of a payload an
    encoder returned, or by the primary-key derivation.  Conversely, for
    a recognized kind, when no collaborator call raises and every payload
    returned can be encoded, the trace is the six calls of the two passes
    and holds no error log. *)
Theorem error_logged_only_on_failure {St} (app : App St)
    (log : list LogEntry) (kind : LogEntityType) (id org : string)
    (sid tid wid bid : option string) (w : World St) :
  let t := trace_of (_save_log_artifacts app log kind id org sid tid wid bid w) in
  (forall msg k i o ids e,
     In (ELogError msg k i o ids e) t ->
     last t = Some (ELogError msg k i o ids e) /\
     ((exists ev, In ev t /\ event_raised ev = Some e) \/
      (exists ty payload,
         In (pass_encoding ty log (Return payload)) t /\ encode payload = Raise e) \/
      primary_key_from_log_entity_type kind = Raise e)) /\
  (forall pk,
     primary_key_from_log_entity_type kind = Return pk ->
     (forall ev, In ev t -> event_raised ev = None) ->
     (forall ty payload,
        In (pass_encoding ty log (Return payload)) t ->
        exists data, encode payload = Return data) ->
     length t = 6 /\ List.filter is_error_log t = []).
Proof.
  unfold_run. split.
  - run_calls; intros msg k i o ids exc Hin; simpl in Hin; split_ors;
      try discriminate;
      match goal with
      | H : ELogError _ _ _ _ _ _ = ELogError _ _ _ _ _ _ |- _ =>
          injection H as <- <- <- <- <- <-
      end;
      (split; [reflexivity | ]);
      first
        [ right; right; reflexivity
        | left; eexists; split; [pick_in | reflexivity]
        | right; left; exists SKYVERN_LOG_RAW; eexists;
          split; [pick_in | eassumption]
        | right; left; exists SKYVERN_LOG; eexists;
          split; [pick_in | eassumption] ].
  - intros pk Hpk. rewrite Hpk. simpl.
    run_calls; intros Hok Henc_ok; simpl in Hok, Henc_ok;
      try (split; reflexivity);
      exfalso;
      try pose proof (Hok _ (or_introl eq_refl));
      try pose proof (Hok _ (or_intror (or_introl eq_refl)));
      try pose proof (Hok _ (or_intror (or_intror (or_introl eq_refl))));
      try pose proof (Hok _ (or_intror (or_intror (or_intror (or_introl eq_refl)))));
      try pose proof (Hok _ (or_intror (or_intror (or_intror (or_intror
                               (or_introl eq_refl))))));
      try pose proof (Hok _ (or_intror (or_intror (or_intror (or_intror
                               (or_intror (or_introl eq_refl)))))));
      try (destruct (Henc_ok SKYVERN_LOG_RAW _ (or_introl eq_refl)));
      try (destruct (Henc_ok SKYVERN_LOG _
                       (or_intror (or_intror (or_intror (or_introl eq_refl))))));
      simpl in *; congruence.
Qed.

Lemma error_logged_only_on_failure_witness :
  let t := trace_of (_save_log_artifacts (scripted healthy_empty) [] STEP "s1" "o1"
                       (Some "s1") None None None (world0 None)) in
  primary_key_from_log_entity_type STEP = Return "step_id" /\
  (forall ev, In ev t -> event_raised ev = None) /\
  (forall ty payload,
     In (pass_encoding ty [] (Return payload)) t ->
     exists data, encode payload = Return data) /\
  length t = 6 /\ List.filter is_error_log t = [].
Proof.
  intros t.
  assert (Hpk : primary_key_from_log_entity_type STEP = Return "step_id")
    by reflexivity.
  assert (Hok : forall ev, In ev t -> event_raised ev = None).
  { intros ev Hin. simpl in Hin. split_ors; subst; reflexivity. }
  assert (Henc : forall ty payload,
            In (pass_encoding ty [] (Return payload)) t ->
            exists data, encode payload = Return data).
  { intros ty payload Hin. simpl in Hin.
    destruct ty; simpl in Hin; split_ors; try discriminate;
      match goal with
      | H : _ _ (Return _) = _ _ (Return payload) |- _ => injection H as <-
      end; eexists; reflexivity. }
  split; [exact Hpk | ]. split; [exact Hok | ]. split; [exact Henc | ].
  exact (proj2 (error_logged_only_on_failure (scripted healthy_empty) [] STEP
                  "s1" "o1" (Some "s1") None None None (world0 None))
           "step_id" Hpk Hok Henc).
Defined.

(** X4: the reconciler does not depend on the ambient context: run on two
    worlds that differ in the context only, it ends in the same outcome,
    issues the same calls and leaves the services in the same state, and
    each world keeps its context. *)
Theorem save_log_artifacts_ignores_context {St} (app : App St)
    (log : list LogEntry) (kind : LogEntityType) (id org : string)
    (sid tid wid bid : option string) (c1 c2 : option SkyvernContext) (s : St) :
  let r1 := _save_log_artifacts app log kind id org sid tid wid bid
              {| current := c1; services := s |} in
  let r2 := _save_log_artifacts app log kind id org sid tid wid bid
              {| current := c2; services := s |} in
  outcome_of r1 = outcome_of r2 /\
  trace_of r1 = trace_of r2 /\
  services (world_of r1) = services (world_of r2) /\
  current (world_of r1) = c1 /\
  current (world_of r2) = c2.
Proof. unfold_run. run_calls; repeat split. Qed.

(** X6: every call a save operation issues carries the operation's own
    arguments: both encoders get the selected entries, every lookup,
    update and creation gets the context's organization id, and every
    creation and error log the operation's entity kind and the entity
    id. *)
Theorem save_op_calls_agree {St} (app : App St) (op : SaveOp) (id : string)
    (ctx : SkyvernContext) (s : St) (ev : Event) :
  In ev (trace_of (save_op app op id {| current := Some ctx; services := s |})) ->
  event_agrees (select_entries (op_field op) id (log ctx)) (op_kind op) id
    (organization_id ctx) ev.
Proof.
  rewrite save_op_in_context. unfold reconcile. apply reconciler_events_agree.
Qed.

Lemma save_op_calls_agree_witness :
  let e1 : LogEntry := {[ "task_id" := PyStr "t1" ]} in
  let e2 : LogEntry := {[ "task_id" := PyStr "t2" ]} in
  let ctx := {| log := [e1; e2; e1]; organization_id := "o1" |} in
  let ev := EFormatEncode [e1; e1] (Return "-") in
  In ev (trace_of (save_op (scripted healthy_empty) SaveTask "t1" (world0 (Some ctx)))) /\
  event_agrees (select_entries "task_id" "t1" (log ctx)) TASK "t1" "o1" ev.
Proof.
  intros e1 e2 ctx ev.
  assert (Hin : In ev (trace_of (save_op (scripted healthy_empty) SaveTask "t1"
                                   (world0 (Some ctx)))))
    by (vm_compute; do 3 right; left; reflexivity).
  split; [exact Hin | ].
  exact (save_op_calls_agree (scripted healthy_empty) SaveTask "t1" ctx tt ev Hin).
Defined.

(** ** The selection of entries *)

(** X7: selection follows the growth of the buffer: the entries selected
    from a buffer extended at its end are the ones selected before,
    followed by the ones selected from the extension. *)
Theorem select_entries_app (field value : string) (log more : list LogEntry) :
  select_entries field value (log ++ more) =
    (select_entries field value log ++ select_entries field value more)%list /\
  select_entries field value log `prefix_of` select_entries field value (log ++ more).
Proof.
  assert (H : select_entries field value (log ++ more) =
              (select_entries field value log ++ select_entries field value more)%list)
    by (unfold select_entries; apply List.filter_app).
  split; [exact H | ]. rewrite H. now apply prefix_app_r.
Qed.

(** X8: for one field, an entry is selected under one id at most: the
    selections for two different ids share no entry. *)
Theorem select_entries_disjoint (field v1 v2 : string) (log1 log2 : list LogEntry)
    (entry : LogEntry) :
  In entry (select_entries field v1 log1) ->
  In entry (select_entries field v2 log2) ->
  v1 = v2.
Proof.
  unfold select_entries. rewrite !filter_In, !select_entries_test.
  intros [_ H1] [_ H2]. destruct H1 as [H1 | [H1 ->]], H2 as [H2 | [H2 ->]];
    congruence.
Qed.

Lemma select_entries_disjoint_witness :
  let e1 : LogEntry := {[ "step_id" := PyStr "s1" ]} in
  let e2 : LogEntry := {[ "step_id" := PyStr "s2" ]} in
  In e1 (select_entries "step_id" "s1" [e1; e2]) /\
  In e1 (select_entries "step_id" "s1" [e2; e1]) /\
  "s1" = "s1".
Proof.
  intros e1 e2.
  assert (H1 : In e1 (select_entries "step_id" "s1" [e1; e2]))
    by (vm_compute; left; reflexivity).
  assert (H2 : In e1 (select_entries "step_id" "s1" [e2; e1]))
    by (vm_compute; left; reflexivity).
  split; [exact H1 | ]. split; [exact H2 | ].
  exact (select_entries_disjoint "step_id" "s1" "s1" [e1; e2] [e2; e1] e1 H1 H2).
Defined.

(** X9: only a string matches.  An entry whose field is present with a
    value that is not a string ([None], a number, a boolean) is selected
    under no id, not even the empty one: the empty-string default stands
    in for an absent field only. *)
Theorem select_entries_skips_non_strings (field value : string)
    (log : list LogEntry) (entry : LogEntry) (x : PyValue) :
  entry !! field = Some x ->
  (forall s, x <> PyStr s) ->
  ~ In entry (select_entries field value log).
Proof.
  intros Hx Hns Hin. apply filter_In in Hin. destruct Hin as [_ Hin].
  apply select_entries_test in Hin. destruct Hin as [Hin | [Hin _]].
  - rewrite Hx in Hin. injection Hin as ->. now apply (Hns value).
  - congruence.
Qed.

Lemma select_entries_skips_non_strings_witness :
  let e : LogEntry := {[ "step_id" := PyNone ]} in
  e !! "step_id" = Some PyNone /\
  select_entries "step_id" EmptyString [e; ∅] = [∅] /\
  ~ In e (select_entries "step_id" EmptyString [e; ∅]).
Proof.
  intros e.
  assert (Hx : e !! "step_id" = Some PyNone) by reflexivity.
  assert (Hns : forall s, PyNone <> PyStr s) by discriminate.
  split; [exact Hx | ]. split; [reflexivity | ].
  exact (select_entries_skips_non_strings "step_id" EmptyString [e; ∅] e PyNone
           Hx Hns).
Defined.

(** X10: a save operation does not stop at an empty selection.  When no
    entry of the buffer matches (an empty buffer included), it still runs
    the reconciler, on the empty log: the raw encoder is called on [[]],
    and so is every encoder call after it. *)
Theorem save_op_persists_empty_selection {St} (app : App St) (op : SaveOp)
    (id : string) (ctx : SkyvernContext) (s : St) :
  let w := {| current := Some ctx; services := s |} in
  (forall entry, In entry (log ctx) ->
     py_eq (dict_get entry (op_field op) (PyStr EmptyString)) (PyStr id) = false) ->
  save_op app op id w =
    reconcile app [] (op_kind op) id (organization_id ctx) (op_ids op id) w /\
  (exists res, head (trace_of (save_op app op id w)) = Some (EJsonDumps [] res)) /\
  (forall l res, In (EFormatEncode l res) (trace_of (save_op app op id w)) -> l = []).
Proof.
  intros w Hnone.
  assert (Hsel : select_entries (op_field op) id (log ctx) = []).
  { unfold select_entries. induction (log ctx) as [ | e l IH]; [reflexivity | ].
    simpl. rewrite (Hnone e (or_introl eq_refl)). apply IH.
    intros entry Hin. apply Hnone. now right. }
  unfold w. rewrite save_op_in_context, Hsel. split; [reflexivity | ].
  split.
  - unfold_run. destruct (json_dumps app [] s) as [[raw | e] s1]; simpl.
    + run_calls; eexists; reflexivity.
    + destruct (is_exception e); eexists; reflexivity.
  - intros l res Hin. unfold reconcile in Hin.
    apply reconciler_events_agree in Hin. exact Hin.
Qed.

Lemma save_op_persists_empty_selection_witness :
  let ctx := {| log := [{[ "step_id" := PyStr "s2" ]}]; organization_id := "o1" |} in
  let ids := EntityIdFields (Some "s1") None None None in
  trace_of (save_op (scripted healthy_empty) SaveStep "s1" (world0 (Some ctx))) =
    [EJsonDumps [] (Return "[]");
     EGetArtifact SKYVERN_LOG_RAW ids "o1" (Return None);
     ECreateArtifact "o1" ids STEP "s1" SKYVERN_LOG_RAW (utf8_bytes "[]") (Return tt);
     EFormatEncode [] (Return "-");
     EGetArtifact SKYVERN_LOG ids "o1" (Return None);
     ECreateArtifact "o1" ids STEP "s1" SKYVERN_LOG (utf8_bytes "-") (Return tt)] /\
  exists res,
    head (trace_of (save_op (scripted healthy_empty) SaveStep "s1" (world0 (Some ctx)))) =
    Some (EJsonDumps [] res).
Proof.
  intros ctx ids. split; [reflexivity | ].
  assert (Hnone : forall entry, In entry (log ctx) ->
            py_eq (dict_get entry (op_field SaveStep) (PyStr EmptyString))
              (PyStr "s1") = false).
  { intros entry Hin. simpl in Hin. split_ors. subst entry. reflexivity. }
  exact (proj1 (proj2 (save_op_persists_empty_selection (scripted healthy_empty)
                         SaveStep "s1" ctx tt Hnone))).
Defined.

(** ** The primary key *)

(** X11: the primary-key derivation answers exactly for the four entity
    kinds, with one of the four entity-id field names, and tells the
    kinds apart: two kinds with the same key are the same kind. *)
Theorem primary_key_of_recognized_kinds (k1 k2 : LogEntityType) :
  ((exists pk, primary_key_from_log_entity_type k1 = Return pk) <->
   (forall repr, k1 <> UNRECOGNIZED repr)) /\
  (forall pk,
     primary_key_from_log_entity_type k1 = Return pk ->
     In pk ["step_id"; "task_id"; "workflow_run_id"; "workflow_run_block_id"]) /\
  (forall pk,
     primary_key_from_log_entity_type k1 = Return pk ->
     primary_key_from_log_entity_type k2 = Return pk ->
     k1 = k2).
Proof.
  split; [ | split].
  - split.
    + intros [pk Hpk] repr ->. discriminate.
    + intros Hrec. destruct k1; try (eexists; reflexivity).
      now destruct (Hrec repr).
  - intros pk Hpk. destruct k1; simpl in Hpk; try discriminate;
      injection Hpk as <-; simpl; tauto.
  - intros pk H1 H2. destruct k1, k2; simpl in H1, H2; congruence.
Qed.

Lemma primary_key_of_recognized_kinds_witness :
  primary_key_from_log_entity_type WORKFLOW_RUN = Return "workflow_run_id" /\
  In "workflow_run_id" ["step_id"; "task_id"; "workflow_run_id"; "workflow_run_block_id"].
Proof.
  assert (H : primary_key_from_log_entity_type WORKFLOW_RUN = Return "workflow_run_id")
    by reflexivity.
  split; [exact H | ].
  exact (proj1 (proj2 (primary_key_of_recognized_kinds WORKFLOW_RUN TASK)) _ H).
Defined.


(** ** How the two passes compose *)

(** X12: nothing is rolled back.  When the raw pass has gone through and
    the formatted pass raises, the world is the one the formatted pass
    left and the calls of the raw pass, its manager call included and
    answered, stay in the trace, followed by those of the formatted pass.
    An instance of [Exception] is then logged and the reconciler returns
    normally; anything else is raised on to the caller, unlogged. *)
Theorem formatted_failure_keeps_raw_effects {St} (app : App St)
    (log : list LogEntry) (kind : LogEntityType) (id org : string)
    (sid tid wid bid : option string) (w w1 w2 : World St)
    (e : PyExc) (t1 t2 : list Event) :
  let ids := EntityIdFields sid tid wid bid in
  raw_pass app log kind id org ids w = (Return tt, w1, t1) ->
  formatted_pass app log kind id org ids w1 = (Raise e, w2, t2) ->
  _save_log_artifacts app log kind id org sid tid wid bid w =
    (if is_exception e
     then (Return tt, w2,
           (t1 ++ t2 ++
            [ELogError "Failed to save log artifacts" kind id org ids e])%list)
     else (Raise e, w2, (t1 ++ t2)%list)) /\
  (exists ev, In ev t1 /\ is_manager_call ev = true /\ event_raised ev = None) /\
  List.filter is_error_log t1 = [].
Proof.
  intros ids Hraw Hfmt. split.
  - rewrite save_log_artifacts_passes. fold ids.
    unfold try_except, bind. rewrite Hraw, Hfmt.
    destruct (is_exception e); [ | reflexivity].
    unfold emit. now rewrite <- app_assoc.
  - revert Hraw. unfold raw_pass, bind, call, lift. simpl.
    run_calls; intros [= <- <-]; (split; [ | reflexivity]);
      eexists; (split; [pick_in | split; reflexivity]).
Qed.

Lemma formatted_failure_keeps_raw_effects_witness :
  let ids := EntityIdFields (Some "s1") None None None in
  let exc := OtherException "RuntimeError" "cannot render" in
  let t1 := [EJsonDumps [] (Return "[]");
             EGetArtifact SKYVERN_LOG_RAW ids "o1" (Return None);
             ECreateArtifact "o1" ids STEP "s1" SKYVERN_LOG_RAW (utf8_bytes "[]")
               (Return tt)] in
  raw_pass (scripted failing_format) [] STEP "s1" "o1" ids (world0 None) =
    (Return tt, world0 None, t1) /\
  formatted_pass (scripted failing_format) [] STEP "s1" "o1" ids (world0 None) =
    (Raise exc, world0 None, [EFormatEncode [] (Raise exc)]) /\
  _save_log_artifacts (scripted failing_format) [] STEP "s1" "o1"
    (Some "s1") None None None (world0 None) =
    (Return tt, world0 None,
     (t1 ++ [EFormatEncode [] (Raise exc);
             ELogError "Failed to save log artifacts" STEP "s1" "o1" ids exc])%list).
Proof.
  intros ids exc t1.
  assert (Hraw : raw_pass (scripted failing_format) [] STEP "s1" "o1" ids (world0 None) =
                 (Return tt, world0 None, t1)) by reflexivity.
  assert (Hfmt : formatted_pass (scripted failing_format) [] STEP "s1" "o1" ids
                   (world0 None) =
                 (Raise exc, world0 None, [EFormatEncode [] (Raise exc)]))
    by reflexivity.
  split; [exact Hraw | ]. split; [exact Hfmt | ].
  exact (proj1 (formatted_failure_keeps_raw_effects (scripted failing_format) []
                  STEP "s1" "o1" (Some "s1") None None None
                  (world0 None) (world0 None) (world0 None) exc _ _ Hraw Hfmt)).
Defined.


(** ** A second save meets the artifacts of the first *)

(** As [run_calls], keeping what each call answered. *)
Ltac run_calls_eqn :=
  repeat match goal with
  | |- context [json_dumps ?a ?l ?s] =>
      destruct (json_dumps a l s) as [[? | ?] ?] eqn:?; simpl
  | |- context [format_encode ?a ?l ?s] =>
      destruct (format_encode a l s) as [[? | ?] ?] eqn:?; simpl
  | |- context [get_artifact_by_entity_id ?a ?t ?i ?o ?s] =>
      destruct (get_artifact_by_entity_id a t i o s) as [[[? | ] | ?] ?] eqn:?; simpl
  | |- context [update_artifact_data ?a ?i ?o ?d ?k ?s] =>
      destruct (update_artifact_data a i o d k s) as [[[] | ?] ?] eqn:?; simpl
  | |- context [create_log_artifact ?a ?o ?i ?k ?e ?t ?d ?s] =>
      destruct (create_log_artifact a o i k e t d s) as [[[] | ?] ?] eqn:?; simpl
  | |- context [encode ?s] =>
      let H := fresh "Henc" in
      destruct (encode_cases s) as [[? H] | H]; rewrite H; simpl
  | |- context [primary_key_from_log_entity_type ?k] =>
      let H := fresh "Hkey" in
      destruct (primary_key_cases k) as [[? H] | [? H]]; rewrite H; simpl
  | |- context [is_exception ?e] =>
      destruct (is_exception e) eqn:?; simpl
  end.

(** Closes a branch whose trace is explicit: no creation in it, and its
    lookups all answered with an artifact. *)
Ltac no_creation_all_found :=
  split;
  [ intros; simpl; intuition discriminate
  | intros ? ? ? ? Hin; simpl in Hin; split_ors; try discriminate;
    match goal with
    | H : EGetArtifact _ _ _ _ = EGetArtifact _ _ _ _ |- _ =>
        injection H as <- <- <- <-
    end; eexists; reflexivity ].

(** Carries a fact held by the services' state across the calls made. *)
Ltac carry Hd Hfm Hg Hu Hcr :=
  repeat match goal with
  | E : json_dumps _ ?l ?s = (_, ?s'), H : ?has ?ty ?s |- _ =>
      lazymatch goal with
      | _ : has ty s' |- _ => fail
      | _ => let K := fresh "Hheld" in
             pose proof (Hd ty l s H) as K; rewrite E in K; simpl in K
      end
  | E : format_encode _ ?l ?s = (_, ?s'), H : ?has ?ty ?s |- _ =>
      lazymatch goal with
      | _ : has ty s' |- _ => fail
      | _ => let K := fresh "Hheld" in
             pose proof (Hfm ty l s H) as K; rewrite E in K; simpl in K
      end
  | E : get_artifact_by_entity_id _ ?t ?i ?o ?s = (_, ?s'), H : ?has ?ty ?s |- _ =>
      lazymatch goal with
      | _ : has ty s' |- _ => fail
      | _ => let K := fresh "Hheld" in
             pose proof (Hg ty t i o s H) as K; rewrite E in K; simpl in K
      end
  | E : update_artifact_data _ ?a ?o ?d ?k ?s = (_, ?s'), H : ?has ?ty ?s |- _ =>
      lazymatch goal with
      | _ : has ty s' |- _ => fail
      | _ => let K := fresh "Hheld" in
             pose proof (Hu ty a o d k s H) as K; rewrite E in K; simpl in K
      end
  | E : create_log_artifact _ ?o ?i ?k ?e ?t ?d ?s = (_, ?s'), H : ?has ?ty ?s |- _ =>
      lazymatch goal with
      | _ : has ty s' |- _ => fail
      | _ => let K := fresh "Hheld" in
             pose proof (Hcr ty o i k e t d s H) as K; rewrite E in K; simpl in K
      end
  end.

(** After a save that created both artifacts, both are held. *)
Lemma first_save_holds_both {St} (app : App St) (ids : EntityIds) (org : string)
    (has : ArtifactType -> St -> Prop)
    (log : list LogEntry) (kind : LogEntityType) (id : string)
    (d1 d2 : list Byte.byte) (w : World St) :
  StoreFindsCreated app ids org has ->
  let r := reconcile app log kind id org ids w in
  In (ECreateArtifact org ids kind id SKYVERN_LOG_RAW d1 (Return tt)) (trace_of r) ->
  In (ECreateArtifact org ids kind id SKYVERN_LOG d2 (Return tt)) (trace_of r) ->
  has SKYVERN_LOG_RAW (services (world_of r)) /\
  has SKYVERN_LOG (services (world_of r)).
Proof.
  intros [Hc Hf Hd Hfm Hg Hu Hcr]. destruct ids as [sid tid wid bid]. unfold_run.
  run_calls_eqn; intros Hraw Hfmt; simpl in Hraw, Hfmt; split_ors; try discriminate.
  match goal with
  | E : create_log_artifact _ _ _ _ _ SKYVERN_LOG_RAW _ _ = (Return tt, _) |- _ =>
      pose proof (Hc _ _ _ _ _ _ E)
  end.
  match goal with
  | E : create_log_artifact _ _ _ _ _ SKYVERN_LOG _ _ = (Return tt, _) |- _ =>
      pose proof (Hc _ _ _ _ _ _ E)
  end.
  carry Hd Hfm Hg Hu Hcr. split; assumption.
Qed.

(** While both artifacts are held, a save finds them and creates
    nothing. *)
Lemma save_on_held_artifacts {St} (app : App St) (ids : EntityIds) (org : string)
    (has : ArtifactType -> St -> Prop)
    (log : list LogEntry) (kind : LogEntityType) (id : string) (w : World St) :
  StoreFindsCreated app ids org has ->
  has SKYVERN_LOG_RAW (services w) ->
  has SKYVERN_LOG (services w) ->
  let r := reconcile app log kind id org ids w in
  (forall o i k e ty d res, ~ In (ECreateArtifact o i k e ty d res) (trace_of r)) /\
  (forall ty i o res,
     In (EGetArtifact ty i o res) (trace_of r) -> exists a, res = Return (Some a)).
Proof.
  intros [Hc Hf Hd Hfm Hg Hu Hcr] Hraw Hfmt. destruct ids as [sid tid wid bid].
  unfold_run.
  destruct (json_dumps app log (services w)) as [[raw | e] s1] eqn:E1; simpl.
  2: { destruct (is_exception e); no_creation_all_found. }
  carry Hd Hfm Hg Hu Hcr.
  match goal with
  | H : has SKYVERN_LOG_RAW s1 |- _ => destruct (Hf _ _ H) as (a1 & s2 & E2)
  end.
  rewrite E2. simpl. carry Hd Hfm Hg Hu Hcr.
  destruct (encode_cases raw) as [[data1 Hd1] | Hd1]; rewrite Hd1; simpl.
  2: { no_creation_all_found. }
  destruct (primary_key_cases kind) as [[pk Hpk] | [msg Hpk]]; rewrite Hpk; simpl.
  2: { no_creation_all_found. }
  destruct (update_artifact_data app (artifact_id a1) org data1 pk s2)
    as [[[] | e] s3] eqn:E3; simpl.
  2: { destruct (is_exception e); no_creation_all_found. }
  destruct (format_encode app log s3) as [[fmt | e] s4] eqn:E4; simpl.
  2: { destruct (is_exception e); no_creation_all_found. }
  carry Hd Hfm Hg Hu Hcr.
  match goal with
  | H : has SKYVERN_LOG s4 |- _ => destruct (Hf _ _ H) as (a2 & s5 & E5)
  end.
  rewrite E5. simpl.
  run_calls; no_creation_all_found.
Qed.

(** The in-memory store finds what was created in it. *)
Lemma memory_store_finds_created (ids : EntityIds) (org : string) :
  StoreFindsCreated memory_app ids org (memory_has ids org).
Proof.
  split.
  - intros kind id ty data s s' [= <-]. eexists. split.
    + apply in_or_app. right. left. reflexivity.
    + unfold stored_matches. simpl.
      rewrite !bool_decide_eq_true_2 by reflexivity. simpl. apply String.eqb_refl.
  - intros ty s [x [Hin Hx]]. simpl.
    destruct (List.find (stored_matches ty ids org) s) as [y | ] eqn:E.
    + eexists _, _. reflexivity.
    + pose proof (find_none _ _ E x Hin). congruence.
  - intros ty l s H. exact H.
  - intros ty l s H. exact H.
  - intros ty ty' ids' org' s H. exact H.
  - intros ty a o d k s [x [Hin Hx]]. simpl.
    eexists. split; [apply in_map, Hin | ].
    destruct (String.eqb (stored_id x) a); exact Hx.
  - intros ty o i k e ty' d s [x [Hin Hx]]. simpl.
    exists x. split; [apply in_or_app; now left | exact Hx].
Qed.

(** X13: create, then update.  Over a store that finds what the manager
    created, once a save has created the raw and the formatted artifact
    of an entity, a later save for that entity finds an artifact at each
    lookup it makes and issues no creation: the artifacts are updated,
    not duplicated. *)
Theorem second_save_updates {St} (app : App St) (ids : EntityIds) (org : string)
    (has : ArtifactType -> St -> Prop)
    (log1 log2 : list LogEntry) (kind1 kind2 : LogEntityType) (id1 id2 : string)
    (d1 d2 : list Byte.byte) (w : World St) :
  StoreFindsCreated app ids org has ->
  let r1 := reconcile app log1 kind1 id1 org ids w in
  In (ECreateArtifact org ids kind1 id1 SKYVERN_LOG_RAW d1 (Return tt)) (trace_of r1) ->
  In (ECreateArtifact org ids kind1 id1 SKYVERN_LOG d2 (Return tt)) (trace_of r1) ->
  let r2 := reconcile app log2 kind2 id2 org ids (world_of r1) in
  (forall o i k e ty d res, ~ In (ECreateArtifact o i k e ty d res) (trace_of r2)) /\
  (forall ty i o res,
     In (EGetArtifact ty i o res) (trace_of r2) -> exists a, res = Return (Some a)).
Proof.
  intros Hstore r1 Hraw Hfmt.
  destruct (first_save_holds_both app ids org has log1 kind1 id1 d1 d2 w
              Hstore Hraw Hfmt) as [H1 H2].
  exact (save_on_held_artifacts app ids org has log2 kind2 id2 (world_of r1)
           Hstore H1 H2).
Qed.

Lemma second_save_updates_witness :
  let ids := EntityIdFields (Some "s1") None None None in
  let w := {| current := None; services := [] |} in
  let r1 := reconcile memory_app [] STEP "s1" "o1" ids w in
  let r2 := reconcile memory_app [] STEP "s1" "o1" ids (world_of r1) in
  StoreFindsCreated memory_app ids "o1" (memory_has ids "o1") /\
  In (ECreateArtifact "o1" ids STEP "s1" SKYVERN_LOG_RAW (utf8_bytes "[]") (Return tt))
     (trace_of r1) /\
  In (ECreateArtifact "o1" ids STEP "s1" SKYVERN_LOG (utf8_bytes "-") (Return tt))
     (trace_of r1) /\
  List.filter is_manager_call (trace_of r2) =
    [EUpdateArtifact "raw-s1" "o1" (utf8_bytes "[]") "step_id" (Return tt);
     EUpdateArtifact "log-s1" "o1" (utf8_bytes "-") "step_id" (Return tt)] /\
  (forall o i k e ty d res, ~ In (ECreateArtifact o i k e ty d res) (trace_of r2)).
Proof.
  intros ids w r1 r2.
  pose proof (memory_store_finds_created ids "o1") as Hstore.
  assert (Hraw : In (ECreateArtifact "o1" ids STEP "s1" SKYVERN_LOG_RAW (utf8_bytes "[]")
                       (Return tt)) (trace_of r1))
    by (do 2 right; left; reflexivity).
  assert (Hfmt : In (ECreateArtifact "o1" ids STEP "s1" SKYVERN_LOG (utf8_bytes "-")
                       (Return tt)) (trace_of r1))
    by (do 5 right; left; reflexivity).
  split; [exact Hstore | ]. split; [exact Hraw | ]. split; [exact Hfmt | ].
  split; [reflexivity | ].
  exact (proj1 (second_save_updates memory_app ids "o1" (memory_has ids "o1")
                  [] [] STEP STEP "s1" "s1" _ _ w Hstore Hraw Hfmt)).
Defined.


(** ** The enumerations *)

(** A call on a value answers a member that has this value. *)
Lemma enum_call_sound {A} (py_repr : string -> string) (E : StrEnum A)
    (v : string) (m : A) :
  enum_call py_repr E v = Return m -> value_of E m = v.
Proof.
  unfold enum_call.
  destruct (List.find (fun m => String.eqb (value_of E m) v) (members E))
    as [m' | ] eqn:Hfind; [ | discriminate].
  intros [= <-]. apply find_some in Hfind. destruct Hfind as [_ Heq].
  now apply String.eqb_eq.
Qed.

(** A call on a value that no listed member has raises. *)
Lemma enum_call_unknown {A} (py_repr : string -> string) (E : StrEnum A)
    (v : string) :
  (forall m, value_of E m <> v) ->
  enum_call py_repr E v =
  Raise (ValueError (py_repr v ++ " is not a valid " ++ enum_name E)).
Proof.
  intros Hno. unfold enum_call.
  destruct (List.find (fun m => String.eqb (value_of E m) v) (members E))
    as [m' | ] eqn:Hfind; [ | reflexivity].
  apply find_some in Hfind. destruct Hfind as [_ Heq].
  apply String.eqb_eq in Heq. now destruct (Hno m').
Qed.

(** X14: in each of the three enumerations the members stand for
    pairwise different strings, so the class called on a member's value
    answers that member and no other, and raises [ValueError] on any
    other string, with a message that starts with the [repr] of that
    string.  For [ObserverThoughtScenario.generate_task] the value is
    [generate_general_task]: the member's own name is not accepted. *)
Theorem observer_enums_round_trip (py_repr : string -> string) :
  value_round_trips py_repr ObserverCruiseStatus.cls /\
  value_round_trips py_repr ObserverThoughtType.cls /\
  value_round_trips py_repr ObserverThoughtScenario.cls /\
  List.NoDup (map ObserverCruiseStatus.value (members ObserverCruiseStatus.cls)) /\
  List.NoDup (map ObserverThoughtType.value (members ObserverThoughtType.cls)) /\
  List.NoDup
    (map ObserverThoughtScenario.value (members ObserverThoughtScenario.cls)) /\
  enum_call py_repr ObserverThoughtScenario.cls "generate_general_task" =
    Return ObserverThoughtScenario.generate_task /\
  enum_call py_repr ObserverThoughtScenario.cls "generate_task" =
    Raise (ValueError
             (py_repr "generate_task" ++ " is not a valid ObserverThoughtScenario")).
Proof.
  assert (Hrt : forall A (E : StrEnum A),
            (forall m, enum_call py_repr E (value_of E m) = Return m) ->
            value_round_trips py_repr E).
  { intros A E Hall. split; [exact Hall | ].
    split; [apply enum_call_sound | apply enum_call_unknown]. }
  split; [apply Hrt; intros []; reflexivity | ].
  split; [apply Hrt; intros []; reflexivity | ].
  split; [apply Hrt; intros []; reflexivity | ].
  repeat split;
    repeat (apply List.NoDup_cons; [simpl; intuition discriminate | ]);
    apply List.NoDup_nil.
Qed.

Lemma observer_enums_round_trip_witness :
  let quoted := fun v : string => "'" ++ v ++ "'" in
  enum_call quoted ObserverCruiseStatus.cls
    (ObserverCruiseStatus.value ObserverCruiseStatus.timed_out) =
    Return ObserverCruiseStatus.timed_out /\
  (forall m, value_of ObserverThoughtType.cls m <> "summarization") /\
  enum_call quoted ObserverThoughtType.cls "summarization" =
    Raise (ValueError "'summarization' is not a valid ObserverThoughtType").
Proof.
  intros quoted.
  pose proof (observer_enums_round_trip quoted) as [H1 [H2 _]].
  assert (Hno : forall m, value_of ObserverThoughtType.cls m <> "summarization")
    by (intros []; discriminate).
  split; [exact (proj1 H1 ObserverCruiseStatus.timed_out) | ].
  split; [exact Hno | ].
  exact (proj2 (proj2 H2) "summarization" Hno).
Defined.

(** ** What the manager is asked to do, and for whom *)

(** X15: the manager is called on the store's answer only.  An update in
    the trace of the reconciler names an artifact that a lookup of the
    same trace answered with, and carries a primary key derived from the
    entity kind; a creation of some type comes with a lookup for that
    type that answered [None]. *)
Theorem manager_calls_follow_lookups {St} (app : App St)
    (log : list LogEntry) (kind : LogEntityType) (id org : string)
    (sid tid wid bid : option string) (w : World St) :
  let t := trace_of (_save_log_artifacts app log kind id org sid tid wid bid w) in
  let ids := EntityIdFields sid tid wid bid in
  (forall a o d pk res,
     In (EUpdateArtifact a o d pk res) t ->
     primary_key_from_log_entity_type kind = Return pk /\
     exists ty art,
       In (EGetArtifact ty ids org (Return (Some art))) t /\ artifact_id art = a) /\
  (forall o i k e ty d res,
     In (ECreateArtifact o i k e ty d res) t ->
     In (EGetArtifact ty ids org (Return None)) t).
Proof.
  unfold_run. split.
  - run_calls; intros ? ? ? ? ? Hin; simpl in Hin; split_ors;
      try discriminate;
      match goal with
      | H : EUpdateArtifact _ _ _ _ _ = EUpdateArtifact _ _ _ _ _ |- _ =>
          injection H as <- <- <- <- <-
      end;
      (split; [reflexivity | ]);
      eexists _, _; (split; [pick_in | reflexivity]).
  - run_calls; intros ? ? ? ? ? ? ? Hin; simpl in Hin; split_ors;
      try discriminate;
      match goal with
      | H : ECreateArtifact _ _ _ _ _ _ _ = ECreateArtifact _ _ _ _ _ _ _ |- _ =>
          injection H as <- <- <- <- <- <- <-
      end; find_in.
Qed.

Lemma manager_calls_follow_lookups_witness :
  let t := trace_of (_save_log_artifacts (scripted healthy_existing) [] TASK "t1" "o1"
                       None (Some "t1") None None (world0 None)) in
  let ids := EntityIdFields None (Some "t1") None None in
  In (EUpdateArtifact "a_fmt" "o1" (utf8_bytes "-") "task_id" (Return tt)) t /\
  exists ty art,
    In (EGetArtifact ty ids "o1" (Return (Some art))) t /\ artifact_id art = "a_fmt".
Proof.
  intros t ids.
  assert (Hin : In (EUpdateArtifact "a_fmt" "o1" (utf8_bytes "-") "task_id" (Return tt)) t)
    by (do 5 right; left; reflexivity).
  split; [exact Hin | ].
  exact (proj2 (proj1 (manager_calls_follow_lookups (scripted healthy_existing) []
                         TASK "t1" "o1" None (Some "t1") None None (world0 None))
                  _ _ _ _ _ Hin)).
Defined.

(** X16: the save operations do not meet.  When a lookup or a creation of
    one save operation carries the same entity-id fields as one of
    another, the two are the same operation called with the same id: a
    step and a task with equal id strings are stored apart. *)
Theorem save_ops_address_distinct_entities {St1 St2}
    (app1 : App St1) (app2 : App St2) (op1 op2 : SaveOp) (id1 id2 : string)
    (w1 : World St1) (w2 : World St2) (ev1 ev2 : Event) (ids : EntityIds) :
  In ev1 (trace_of (save_op app1 op1 id1 w1)) ->
  In ev2 (trace_of (save_op app2 op2 id2 w2)) ->
  event_ids ev1 = Some ids ->
  event_ids ev2 = Some ids ->
  op1 = op2 /\ id1 = id2.
Proof.
  assert (Hids : forall St (app : App St) op id (w : World St) ev,
            In ev (trace_of (save_op app op id w)) ->
            event_ids ev = Some ids -> ids = op_ids op id).
  { intros St app op id [[ctx | ] s] ev Hin Hev.
    - rewrite save_op_in_context in Hin. unfold reconcile in Hin.
      apply (save_log_artifacts_ids _ _ _ _ _ _ _ _ _ _ _ _ Hin) in Hev.
      rewrite Hev. destruct op; reflexivity.
    - destruct op; simpl in Hin; split_ors; subst; discriminate. }
  intros Hin1 Hin2 Hev1 Hev2.
  pose proof (Hids _ _ _ _ _ _ Hin1 Hev1) as H1.
  pose proof (Hids _ _ _ _ _ _ Hin2 Hev2) as H2.
  rewrite H1 in H2. destruct op1, op2; simpl in H2; try discriminate;
    injection H2 as ->; split; reflexivity.
Qed.

Lemma save_ops_address_distinct_entities_witness :
  let ctx := {| log := []; organization_id := "o1" |} in
  let ids := EntityIdFields None None (Some "w1") None in
  let ev1 := EGetArtifact SKYVERN_LOG_RAW ids "o1" (Return None) in
  let ev2 := EGetArtifact SKYVERN_LOG ids "o1"
               (Return (Some {| artifact_id := "a_fmt" |})) in
  In ev1 (trace_of (save_op (scripted healthy_empty) SaveWorkflowRun "w1"
                      (world0 (Some ctx)))) /\
  In ev2 (trace_of (save_op (scripted healthy_existing) SaveWorkflowRun "w1"
                      (world0 (Some ctx)))) /\
  SaveWorkflowRun = SaveWorkflowRun /\ "w1" = "w1".
Proof.
  intros ctx ids ev1 ev2.
  assert (H1 : In ev1 (trace_of (save_op (scripted healthy_empty) SaveWorkflowRun "w1"
                                    (world0 (Some ctx)))))
    by (right; left; reflexivity).
  assert (H2 : In ev2 (trace_of (save_op (scripted healthy_existing) SaveWorkflowRun
                                    "w1" (world0 (Some ctx)))))
    by (do 4 right; left; reflexivity).
  split; [exact H1 | ]. split; [exact H2 | ].
  exact (save_ops_address_distinct_entities (scripted healthy_empty)
           (scripted healthy_existing) SaveWorkflowRun SaveWorkflowRun "w1" "w1"
           (world0 (Some ctx)) (world0 (Some ctx)) ev1 ev2 ids H1 H2
           eq_refl eq_refl).
Defined.
